(** * The ADC driver of the BitSafe tester (adc.c)

    A shallow embedding of the interrupt-driven sample acquisition code:
    [initADC], [insertSample], [_ADCHandler] and [beginFillingADCBuffer].

    The C globals and the special function registers the code touches are
    the fields of a [machine]; every function of adc.c is a computation
    in a small state monad that also records, in program order, the
    accesses it performs (the [event]s), so that statements about the
    order of register reads and about the positions of array stores can
    be made. *)

From Stdlib Require Import ZArith Lia List String.
From stdpp Require Import base list.
Import ListNotations.

Local Open Scope Z_scope.

(** ** Machine state *)

(** [adc_sample_buffer], [sample_buffer_current_index] and
    [sample_buffer_full] are the three globals of adc.c.  [T3CON_ON] is
    the bit that runs Timer3 (the trigger of the conversions),
    [IFS1_AD1IF] is the interrupt flag of the ADC and [IE] is the global
    interrupt enable that [disableInterrupts] and [restoreInterrupts]
    act on. *)
Record machine : Type := Machine {
  adc_sample_buffer : list Z;            (* volatile uint16_t [SAMPLE_BUFFER_SIZE] *)
  sample_buffer_current_index : Z;       (* static volatile uint32_t *)
  sample_buffer_full : Z;                (* volatile int *)
  T3CON_ON : Z;
  IFS1_AD1IF : Z;
  IE : Z
}.

(** The result registers of the converter and the bit that tells which
    half of them the converter is filling.  The code only reads them. *)
Record adc_regs : Type := AdcRegs {
  AD1CON2_BUFS : Z;
  ADC1BUF : nat -> Z                     (* ADC1BUF0 .. ADC1BUFF, by slot *)
}.

(** What a function does to its environment, in program order. *)
Inductive event : Type :=
| EvReadBUFS                             (* read of AD1CON2bits.BUFS *)
| EvReadBUF (slot : nat)                 (* read of ADC1BUFx *)
| EvInsert (sample : Z)                  (* entry into insertSample *)
| EvStore (index value : Z)              (* adc_sample_buffer[index] = value *)
| EvIndex (value : Z)                    (* sample_buffer_current_index = value *)
| EvFull (value : Z)                     (* sample_buffer_full = value *)
| EvTimer (on : Z)                       (* T3CONbits.ON = on *)
| EvAD1IF (value : Z)                    (* IFS1bits.AD1IF = value *)
| EvDisableInterrupts
| EvRestoreInterrupts (status : Z)
| EvSFR (field : string) (value : Z)     (* any other register field *)
| EvDelay (cycles : Z).

(** ** The monad *)

Record outcome (A : Type) : Type := Outcome {
  value : A;
  after : machine;
  events : list event
}.
Arguments Outcome {A} _ _ _.
Arguments value {A} _.
Arguments after {A} _.
Arguments events {A} _.

Definition M (A : Type) : Type := machine -> outcome A.

Definition ret {A} (a : A) : M A := fun s => Outcome a s [].

Definition bind {A B} (m : M A) (k : A -> M B) : M B :=
  fun s =>
    let r1 := m s in
    let r2 := k (value r1) (after r1) in
    Outcome (value r2) (after r2) (events r1 ++ events r2).

Declare Scope adc_scope.
Delimit Scope adc_scope with adc.
Notation "x <- m ;; k" := (bind m (fun x => k))
  (at level 100, m at next level, k at level 200, right associativity) : adc_scope.
Notation "m ;; k" := (bind m (fun _ => k))
  (at level 100, k at level 200, right associativity) : adc_scope.
Local Open Scope adc_scope.

Definition gets {A} (f : machine -> A) : M A := fun s => Outcome (f s) s [].

Definition effect (e : event) (f : machine -> machine) : M unit :=
  fun s => Outcome tt (f s) [e].

(** ** Fixed-width arithmetic *)

Definition uint16 (x : Z) : Z := x mod 2 ^ 16.
Definition uint32 (x : Z) : Z := x mod 2 ^ 32.

(** ** Accesses to globals and registers *)

Definition set_buffer (b : list Z) (s : machine) : machine :=
  Machine b (sample_buffer_current_index s) (sample_buffer_full s)
          (T3CON_ON s) (IFS1_AD1IF s) (IE s).
Definition set_index (i : Z) (s : machine) : machine :=
  Machine (adc_sample_buffer s) i (sample_buffer_full s)
          (T3CON_ON s) (IFS1_AD1IF s) (IE s).
Definition set_full (f : Z) (s : machine) : machine :=
  Machine (adc_sample_buffer s) (sample_buffer_current_index s) f
          (T3CON_ON s) (IFS1_AD1IF s) (IE s).
Definition set_T3CON_ON (b : Z) (s : machine) : machine :=
  Machine (adc_sample_buffer s) (sample_buffer_current_index s)
          (sample_buffer_full s) b (IFS1_AD1IF s) (IE s).
Definition set_AD1IF (b : Z) (s : machine) : machine :=
  Machine (adc_sample_buffer s) (sample_buffer_current_index s)
          (sample_buffer_full s) (T3CON_ON s) b (IE s).
Definition set_IE (b : Z) (s : machine) : machine :=
  Machine (adc_sample_buffer s) (sample_buffer_current_index s)
          (sample_buffer_full s) (T3CON_ON s) (IFS1_AD1IF s) b.

Definition read_index : M Z := gets sample_buffer_current_index.
Definition write_index (i : Z) : M unit := effect (EvIndex i) (set_index i).
Definition write_full (f : Z) : M unit := effect (EvFull f) (set_full f).
Definition write_T3CON_ON (b : Z) : M unit := effect (EvTimer b) (set_T3CON_ON b).
Definition write_AD1IF (b : Z) : M unit := effect (EvAD1IF b) (set_AD1IF b).

(** [adc_sample_buffer[i] = v].  The array is a list and the store is
    stdpp's list insert, which leaves the list alone when [i] is not a
    position of it; in C such a store is undefined.  The store is
    recorded with its index, so that the positions the code writes to can
    be bounded. *)
Definition store_sample (i v : Z) : M unit :=
  effect (EvStore i v)
         (fun s => set_buffer (<[Z.to_nat i := v]> (adc_sample_buffer s)) s).

(** A register field whose value no function of adc.c reads back. *)
Definition write_SFR (field : string) (v : Z) : M unit :=
  effect (EvSFR field v) (fun s => s).

(** Modelled from the spec: [disableInterrupts] and [restoreInterrupts]
    are defined in pic32_system.c, which is not among the sources.  The
    first suppresses interrupts and returns the previous status, the
    second puts a saved status back (main.c enables interrupts with
    [restoreInterrupts(1)]). *)
Definition disableInterrupts : M Z :=
  fun s => Outcome (IE s) (set_IE 0 s) [EvDisableInterrupts].
Definition restoreInterrupts (status : Z) : M unit :=
  effect (EvRestoreInterrupts status) (set_IE status).

(** Modelled from the spec: [delayCycles] is defined in pic32_system.c,
    which is not among the sources; it only lets time pass. *)
Definition delayCycles (n : Z) : M unit := effect (EvDelay n) (fun s => s).

(** ** adc.c *)

Section ADC.

(** [SAMPLE_BUFFER_SIZE] is defined in adc.h, which is not among the
    sources: it is a parameter of the development. *)
Variable SAMPLE_BUFFER_SIZE : Z.

(** [initADC], lines 50-94. *)
Definition initADC : M unit :=
  write_SFR "AD1CON1bits.ON" 0 ;;
  write_SFR "AD1PCFGbits.PCFG2" 0 ;;
  write_SFR "TRISBbits.TRISB2" 1 ;;
  write_SFR "TRISCbits.TRISC13" 1 ;;
  write_SFR "TRISCbits.TRISC14" 1 ;;
  write_SFR "AD1CHSbits.CH0SA" 2 ;;
  write_SFR "AD1CHSbits.CH0NA" 0 ;;
  write_SFR "AD1CON1bits.FORM" 4 ;;
  write_SFR "AD1CON1bits.SSRC" 2 ;;
  write_SFR "AD1CON1bits.ASAM" 1 ;;
  write_SFR "AD1CON2bits.VCFG" 0 ;;
  write_SFR "AD1CON2bits.CSCNA" 0 ;;
  write_SFR "AD1CON2bits.SMPI" 7 ;;
  write_SFR "AD1CON2bits.BUFM" 1 ;;
  write_SFR "AD1CON2bits.ALTS" 0 ;;
  write_SFR "AD1CON3bits.ADRC" 0 ;;
  write_SFR "AD1CON3bits.SAMC" 12 ;;
  write_SFR "AD1CON3bits.ADCS" 14 ;;
  write_SFR "AD1CON1bits.SIDL" 1 ;;
  write_SFR "AD1CON1bits.CLRASAM" 0 ;;
  write_SFR "AD1CON1bits.SAMP" 0 ;;
  write_SFR "AD1CON2bits.OFFCAL" 0 ;;
  write_SFR "AD1CON1bits.ON" 1 ;;
  write_SFR "IPC6bits.AD1IP" 3 ;;
  write_SFR "IPC6bits.AD1IS" 0 ;;
  write_AD1IF 0 ;;
  write_SFR "IEC1bits.AD1IE" 1 ;;
  delayCycles 144 ;;
  write_T3CON_ON 0 ;;
  write_SFR "T3CONbits.SIDL" 0 ;;
  write_SFR "T3CONbits.TCKPS" 0 ;;
  write_SFR "T3CONbits.TGATE" 0 ;;
  write_SFR "T3CONbits.SIDL" 0 ;;
  write_SFR "TMR3" 0 ;;
  write_SFR "PR3" 1633 ;;
  write_SFR "IFS0bits.T3IF" 0 ;;
  write_SFR "IEC0bits.T3IE" 0.

(** [insertSample], lines 99-112. *)
Definition insertSample (sample : Z) : M unit :=
  effect (EvInsert sample) (fun s => s) ;;
  let sample := Z.land sample 0x3ff in
  i <- read_index ;;
  if i >=? SAMPLE_BUFFER_SIZE then
    write_T3CON_ON 0 ;;
    write_full 1
  else
    i <- read_index ;;
    store_sample i (uint16 sample) ;;
    i <- read_index ;;
    write_index (uint32 (i + 1)).

Section Handler.

Variable hw : adc_regs.

Definition read_BUFS : M Z :=
  fun s => Outcome (AD1CON2_BUFS hw) s [EvReadBUFS].
Definition read_ADC1BUF (slot : nat) : M Z :=
  fun s => Outcome (ADC1BUF hw slot) s [EvReadBUF slot].

Definition ADC1BUF0 := read_ADC1BUF 0.
Definition ADC1BUF1 := read_ADC1BUF 1.
Definition ADC1BUF2 := read_ADC1BUF 2.
Definition ADC1BUF3 := read_ADC1BUF 3.
Definition ADC1BUF4 := read_ADC1BUF 4.
Definition ADC1BUF5 := read_ADC1BUF 5.
Definition ADC1BUF6 := read_ADC1BUF 6.
Definition ADC1BUF7 := read_ADC1BUF 7.
Definition ADC1BUF8 := read_ADC1BUF 8.
Definition ADC1BUF9 := read_ADC1BUF 9.
Definition ADC1BUFA := read_ADC1BUF 10.
Definition ADC1BUFB := read_ADC1BUF 11.
Definition ADC1BUFC := read_ADC1BUF 12.
Definition ADC1BUFD := read_ADC1BUF 13.
Definition ADC1BUFE := read_ADC1BUF 14.
Definition ADC1BUFF := read_ADC1BUF 15.

(** [_ADCHandler], lines 117-147. *)
Definition _ADCHandler : M unit :=
  bufs <- read_BUFS ;;
  (if bufs =? 0 then
     (v <- ADC1BUF8 ;; insertSample v) ;;
     (v <- ADC1BUF9 ;; insertSample v) ;;
     (v <- ADC1BUFA ;; insertSample v) ;;
     (v <- ADC1BUFB ;; insertSample v) ;;
     (v <- ADC1BUFC ;; insertSample v) ;;
     (v <- ADC1BUFD ;; insertSample v) ;;
     (v <- ADC1BUFE ;; insertSample v) ;;
     (v <- ADC1BUFF ;; insertSample v)
   else
     (v <- ADC1BUF0 ;; insertSample v) ;;
     (v <- ADC1BUF1 ;; insertSample v) ;;
     (v <- ADC1BUF2 ;; insertSample v) ;;
     (v <- ADC1BUF3 ;; insertSample v) ;;
     (v <- ADC1BUF4 ;; insertSample v) ;;
     (v <- ADC1BUF5 ;; insertSample v) ;;
     (v <- ADC1BUF6 ;; insertSample v) ;;
     (v <- ADC1BUF7 ;; insertSample v)) ;;
  write_AD1IF 0.

End Handler.

(** [beginFillingADCBuffer], lines 159-168. *)
Definition beginFillingADCBuffer : M unit :=
  status <- disableInterrupts ;;
  write_index 0 ;;
  write_full 0 ;;
  write_T3CON_ON 1 ;;
  restoreInterrupts status.

End ADC.

(** ** Runs *)

(** The slots of the two banks of result registers. *)
Definition bank_A : list nat := [0; 1; 2; 3; 4; 5; 6; 7]%nat.
Definition bank_B : list nat := [8; 9; 10; 11; 12; 13; 14; 15]%nat.

(** The bank that the handler reads: the one the converter is not
    filling. *)
Definition completed_bank (hw : adc_regs) : list nat :=
  if AD1CON2_BUFS hw =? 0 then bank_B else bank_A.

(** The values that one invocation of the handler passes to
    [insertSample], in program order. *)
Definition drained (hw : adc_regs) : list Z := map (ADC1BUF hw) (completed_bank hw).

(** The entry points of the driver, as the rest of the firmware and the
    interrupt controller use them. *)
Inductive call : Type :=
| CallInit
| CallStart
| CallHandler (hw : adc_regs).

Section Runs.

Variable SAMPLE_BUFFER_SIZE : Z.

(** Successive calls of [insertSample]. *)
Fixpoint inserts (vs : list Z) : M unit :=
  match vs with
  | [] => ret tt
  | v :: vs => insertSample SAMPLE_BUFFER_SIZE v ;; inserts vs
  end.

Definition exec (c : call) : M unit :=
  match c with
  | CallInit => initADC
  | CallStart => beginFillingADCBuffer
  | CallHandler hw => _ADCHandler SAMPLE_BUFFER_SIZE hw
  end.

Fixpoint execs (cs : list call) : M unit :=
  match cs with
  | [] => ret tt
  | c :: cs => exec c ;; execs cs
  end.

(** Successive invocations of the handler, one per completed bank. *)
Definition interrupts (hws : list adc_regs) : M unit := execs (map CallHandler hws).

(** The machine when [main] starts: objects of static storage duration
    are zero, Timer3 is stopped, no interrupt is pending or enabled. *)
Definition reset : machine :=
  Machine (replicate (Z.to_nat SAMPLE_BUFFER_SIZE) 0) 0 0 0 0 0.

End Runs.

(** ** Views of a trace *)

(** The array stores of a trace: position and value, in order. *)
Definition stores (es : list event) : list (Z * Z) :=
  flat_map (fun e => match e with EvStore i v => [(i, v)] | _ => [] end) es.

(** The reads of the converter's registers, the calls of [insertSample]
    and the writes of the interrupt flag of a trace, in order. *)
Definition is_control (e : event) : bool :=
  match e with
  | EvReadBUFS | EvReadBUF _ | EvInsert _ | EvAD1IF _ => true
  | _ => false
  end.
Definition control (es : list event) : list event := List.filter is_control es.

(** What one drain of the slots [bank] looks like in [control]: each
    slot is read and its value handed to [insertSample] before the next
    slot is read. *)
Definition drain_trace (hw : adc_regs) (bank : list nat) : list event :=
  flat_map (fun k => [EvReadBUF k; EvInsert (ADC1BUF hw k)]) bank.

(** A converter whose two banks both hold the values 0..7. *)
Definition synthetic (bufs : Z) : adc_regs :=
  AdcRegs bufs (fun k => Z.of_nat (k mod 8) mod 1024).

(** 0,1,...,7,0,1,... cut after [n] entries. *)
Definition ramp (n : nat) : list Z := map (fun k => Z.of_nat (k mod 8)) (seq 0 n).

(** What foreground code can tell about a batch: the samples written so
    far, the write index, the flag and the state of the trigger. *)
Definition observable (s : machine) : list Z * Z * Z * Z :=
  (take (Z.to_nat (sample_buffer_current_index s)) (adc_sample_buffer s),
   sample_buffer_current_index s, sample_buffer_full s, T3CON_ON s).

(** The state that successive calls of [insertSample] with the values
    [vs] lead to, in closed form (see [inserts_after]): the values that
    still fit are written from the write index on, the others are
    dropped, and the flag and the timer bit change only when a value was
    dropped. *)
Definition filled (size : Z) (vs : list Z) (s : machine) : machine :=
  let i := sample_buffer_current_index s in
  let n := Z.of_nat (length vs) in
  Machine
    (list_inserts (Z.to_nat i)
       (map (fun v => Z.land v 0x3ff) (take (Z.to_nat (size - i)) vs))
       (adc_sample_buffer s))
    (Z.min (i + n) size)
    (if size - i <? n then 1 else sample_buffer_full s)
    (if size - i <? n then 0 else T3CON_ON s)
    (IFS1_AD1IF s) (IE s).

(** A store into the sample buffer that is within the array and holds a
    10-bit value. *)
Definition store_ok (size : Z) (p : Z * Z) : Prop :=
  0 <= fst p < size /\ 0 <= snd p <= 1023.

(** The invariant of the driver. *)
Definition inv (size : Z) (s : machine) : Prop :=
  0 <= sample_buffer_current_index s <= size /\
  length (adc_sample_buffer s) = Z.to_nat size /\
  Forall (fun x => 0 <= x <= 1023) (adc_sample_buffer s).

(** What a non-zero flag announces. *)
Definition complete_inv (size : Z) (s : machine) : Prop :=
  sample_buffer_full s <> 0 ->
  sample_buffer_current_index s = size /\ T3CON_ON s = 0.

(** ** testADC: filling the buffer *)

Section Fill.

Variable SAMPLE_BUFFER_SIZE : Z.

(** The busy wait of [testADC], lines 182-185:
    [while (sample_buffer_full == 0) { }].  The loop body is empty, so
    between two reads of the flag the machine changes only through the
    interrupts that arrive; [hws] are the completed banks that the
    converter still delivers, in order.  The loop leaves with what is
    left of them as soon as it reads a non-zero flag, and it is still
    spinning ([None]) when the converter delivers nothing more while the
    flag is zero. *)
Fixpoint wait_full (hws : list adc_regs) : M (option (list adc_regs)) :=
  fun s =>
    if sample_buffer_full s =? 0 then
      match hws with
      | [] => Outcome None s []
      | hw :: hws => (_ADCHandler SAMPLE_BUFFER_SIZE hw ;; wait_full hws) s
      end
    else Outcome (Some hws) s [].

(** [testADC], lines 180-185: the buffer is filled.  The statistics that
    follow (lines 187-213) are computed in [double] arithmetic and sent
    to the display; they change nothing in the machine and are not part
    of the embedding. *)
Definition testADC_fill (hws : list adc_regs) : M (option (list adc_regs)) :=
  beginFillingADCBuffer ;; wait_full hws.

End Fill.

(** ** Views of the trace of [initADC] *)

(** The last value that a trace writes to the register field [field]. *)
Definition last_write (field : string) (es : list event) : option Z :=
  fold_left (fun acc e =>
               match e with
               | EvSFR f v => if String.eqb f field then Some v else acc
               | _ => acc
               end) es None.

(** Whether every write of a trace to a field of the converter's
    registers (AD1CON1, AD1CON2, AD1CON3, AD1CHS, AD1PCFG), other than
    the bit [AD1CON1bits.ON] itself, is made while that bit is 0; [on]
    is the bit at the start of the trace. *)
Fixpoint configured_while_off (on : bool) (es : list event) : bool :=
  match es with
  | [] => true
  | EvSFR f v :: es =>
      if String.eqb f "AD1CON1bits.ON" then configured_while_off (negb (v =? 0)) es
      else if String.prefix "AD1" f then negb on && configured_while_off on es
      else configured_while_off on es
  | _ :: es => configured_while_off on es
  end.

(** Whether a trace clears the interrupt flag of the converter before it
    enables its interrupt; [cleared] says whether the flag is known to be
    clear at the start of the trace. *)
Fixpoint flag_cleared_before_enable (cleared : bool) (es : list event) : bool :=
  match es with
  | [] => true
  | EvAD1IF v :: es => flag_cleared_before_enable (v =? 0) es
  | EvSFR f v :: es =>
      if String.eqb f "IEC1bits.AD1IE" && negb (v =? 0)
      then cleared && flag_cleared_before_enable cleared es
      else flag_cleared_before_enable cleared es
  | _ :: es => flag_cleared_before_enable cleared es
  end.

(** ** main.c: the loop over the tests *)

Definition int32 (x : Z) : Z := (x + 2 ^ 31) mod 2 ^ 32 - 2 ^ 31.

(** [NUM_TESTS], line 24. *)
Definition NUM_TESTS : Z := 4.

(** The self-tests that [main] chooses from. *)
Inductive test : Type :=
| TestSSD1306
| TestSST25x
| TestATSHA204
| TestADC.

(** The test that one turn of the loop of [main] runs, lines 84-99; none
    when [test_number] is none of 0, 1, 2, 3. *)
Definition select_test (test_number : Z) : option test :=
  if test_number =? 0 then Some TestSSD1306
  else if test_number =? 1 then Some TestSST25x
  else if test_number =? 2 then Some TestATSHA204
  else if test_number =? 3 then Some TestADC
  else None.

(** The update of [test_number] at the end of one turn of the loop of
    [main], lines 102-117; [button] is what [waitForButtonPress]
    returned. *)
Definition next_test_number (button : Z) (test_number : Z) : Z :=
  if button =? 0 then
    let test_number := int32 (test_number + 1) in
    if test_number >=? NUM_TESTS then 0 else test_number
  else
    let test_number := int32 (test_number - 1) in
    if test_number <? 0 then NUM_TESTS - 1 else test_number.

(** The loop of [main], lines 81-118, for as many turns as there are
    button presses in [buttons]: the tests that were run, in order, and
    [test_number] after the last turn. *)
Fixpoint main_loop (buttons : list Z) (test_number : Z) : list (option test) * Z :=
  match buttons with
  | [] => ([], test_number)
  | button :: buttons =>
      let run := select_test test_number in
      let rest := main_loop buttons (next_test_number button test_number) in
      (run :: fst rest, snd rest)
  end.

(** How many presses of [buttons] go forward (return value 0) minus how
    many go back. *)
Definition net_presses (buttons : list Z) : Z :=
  fold_right (fun button n => if button =? 0 then n + 1 else n - 1) 0 buttons.

(** ** The flag over a batch *)

(** The values that [sample_buffer_full] takes in a batch that is made of
    [beginFillingADCBuffer] and the calls of [insertSample] with the
    values [vs]: the flag when [beginFillingADCBuffer] returns, then the
    flag after each call, in order. *)
Definition flag_history (size : Z) (s : machine) (vs : list Z) : list Z :=
  map (fun k => sample_buffer_full
                  (after (inserts size (take k vs) (after (beginFillingADCBuffer s)))))
      (seq 0 (S (length vs))).

(** How often a sequence of flag values goes from zero to non-zero. *)
Fixpoint rises (flags : list Z) : nat :=
  match flags with
  | [] => 0%nat
  | a :: rest =>
      Nat.add
        (match rest with
         | b :: _ => if (a =? 0) && negb (b =? 0) then 1%nat else 0%nat
         | [] => 0%nat
         end)
        (rises rest)
  end.

(** The slots of the result registers that a trace reads, in order. *)
Definition buf_reads (es : list event) : list nat :=
  flat_map (fun e => match e with EvReadBUF k => [k] | _ => [] end) es.

(** * Properties *)

(** ** The 10-bit mask *)

Lemma mask_mod (v : Z) : Z.land v 0x3ff = v mod 2 ^ 10.
Proof. change 0x3ff with (Z.ones 10). now rewrite Z.land_ones by lia. Qed.

Lemma mask_range (v : Z) : 0 <= Z.land v 0x3ff <= 1023.
Proof. rewrite mask_mod. pose proof (Z.mod_pos_bound v (2 ^ 10)). lia. Qed.

Lemma uint16_mask (v : Z) : uint16 (Z.land v 0x3ff) = Z.land v 0x3ff.
Proof.
  unfold uint16. pose proof (mask_range v).
  apply Z.mod_small. change (2 ^ 16) with 65536. lia.
Qed.

(** ** Traces *)

Lemma stores_app (es1 es2 : list event) : stores (es1 ++ es2) = stores es1 ++ stores es2.
Proof. unfold stores. apply flat_map_app. Qed.

Lemma control_app (es1 es2 : list event) : control (es1 ++ es2) = control es1 ++ control es2.
Proof. unfold control. apply List.filter_app. Qed.

(** ** Tactics *)

(** Compute the fields of a machine built by the setters. *)
Ltac fields :=
  cbn [adc_sample_buffer sample_buffer_current_index sample_buffer_full
       T3CON_ON IFS1_AD1IF IE
       set_buffer set_index set_full set_T3CON_ON set_AD1IF set_IE
       after value events length] in *.

(** Decide the comparisons of the goal. *)
Ltac case_ltb :=
  repeat match goal with
         | |- context [?a <? ?b] => destruct (Z.ltb_spec a b)
         end.

(** ** The driver *)

Section Properties.

Variable SAMPLE_BUFFER_SIZE : Z.

(** The buffer is an array of [uint16_t] in the memory of a 32-bit
    machine, so its size is a positive 32-bit number. *)
Hypothesis size_range : 0 < SAMPLE_BUFFER_SIZE < 2 ^ 32.

Local Abbreviation N := SAMPLE_BUFFER_SIZE.

(** *** One call of [insertSample] *)

Lemma insertSample_eq (v : Z) (s : machine) :
  insertSample N v s =
  let i := sample_buffer_current_index s in
  let m := Z.land v 0x3ff in
  if i >=? N
  then Outcome tt (set_full 1 (set_T3CON_ON 0 s)) [EvInsert v; EvTimer 0; EvFull 1]
  else Outcome tt
         (set_index (uint32 (i + 1)) (set_buffer (<[Z.to_nat i := m]> (adc_sample_buffer s)) s))
         [EvInsert v; EvStore i m; EvIndex (uint32 (i + 1))].
Proof.
  unfold insertSample, bind, read_index, gets; simpl.
  destruct (sample_buffer_current_index s >=? N); simpl; [reflexivity |].
  now rewrite uint16_mask.
Qed.

Lemma insertSample_full (v : Z) (s : machine) :
  N <= sample_buffer_current_index s ->
  insertSample N v s =
  Outcome tt (set_full 1 (set_T3CON_ON 0 s)) [EvInsert v; EvTimer 0; EvFull 1].
Proof.
  intros Hfull. rewrite insertSample_eq; simpl.
  destruct (Z.geb_spec (sample_buffer_current_index s) N) as [_ | Hlt]; [reflexivity | lia].
Qed.

Lemma insertSample_room (v : Z) (s : machine) :
  0 <= sample_buffer_current_index s < N ->
  insertSample N v s =
  let i := sample_buffer_current_index s in
  let m := Z.land v 0x3ff in
  Outcome tt
    (set_index (i + 1) (set_buffer (<[Z.to_nat i := m]> (adc_sample_buffer s)) s))
    [EvInsert v; EvStore i m; EvIndex (i + 1)].
Proof.
  intros Hroom. rewrite insertSample_eq; simpl.
  destruct (Z.geb_spec (sample_buffer_current_index s) N) as [Hge | _]; [lia |].
  unfold uint32. rewrite (Z.mod_small (_ + 1)) by lia.
  reflexivity.
Qed.

Lemma insertSample_control (v : Z) (s : machine) :
  control (events (insertSample N v s)) = [EvInsert v].
Proof.
  rewrite insertSample_eq; simpl.
  destruct (sample_buffer_current_index s >=? N); reflexivity.
Qed.

(** C1.  One call of [insertSample] with any value [v]: the value is
    masked to its low 10 bits; when the write index is below
    [SAMPLE_BUFFER_SIZE] the masked value is stored at the write index
    and the write index grows by exactly one (nothing else changes);
    otherwise [sample_buffer_full] is set, Timer3 is turned off and no
    store into the sample buffer is performed. *)
Theorem insertSample_contract (v : Z) (s : machine) :
  0 <= sample_buffer_current_index s ->
  let i := sample_buffer_current_index s in
  let m := Z.land v 0x3ff in
  let r := insertSample N v s in
  (m = v mod 2 ^ 10 /\ 0 <= m <= 1023) /\
  (i < N ->
     after r = set_index (i + 1) (set_buffer (<[Z.to_nat i := m]> (adc_sample_buffer s)) s) /\
     events r = [EvInsert v; EvStore i m; EvIndex (i + 1)]) /\
  (~ i < N ->
     after r = set_full 1 (set_T3CON_ON 0 s) /\
     events r = [EvInsert v; EvTimer 0; EvFull 1] /\
     stores (events r) = []).
Proof.
  intros Hpos i m r. split; [| split].
  - split; [apply mask_mod | apply mask_range].
  - intros Hlt. subst r. rewrite insertSample_room by (subst i; lia). split; reflexivity.
  - intros Hge. subst r. rewrite insertSample_full by (subst i; lia).
    repeat split; reflexivity.
Qed.

(** *** One invocation of the handler *)

Lemma handler_after (hw : adc_regs) (s : machine) :
  after (_ADCHandler N hw s) = set_AD1IF 0 (after (inserts N (drained hw) s)).
Proof.
  unfold _ADCHandler, drained, completed_bank.
  cbn [bind after value read_BUFS].
  destruct (AD1CON2_BUFS hw =? 0); reflexivity.
Qed.

Lemma handler_events (hw : adc_regs) (s : machine) :
  exists body,
    events (_ADCHandler N hw s) = EvReadBUFS :: body ++ [EvAD1IF 0] /\
    control body = drain_trace hw (completed_bank hw) /\
    stores body = stores (events (inserts N (drained hw) s)).
Proof.
  unfold _ADCHandler, drained, completed_bank.
  cbn [bind after value events read_BUFS app].
  destruct (AD1CON2_BUFS hw =? 0); cbn [write_AD1IF effect events];
    (eexists; split; [reflexivity |]);
    cbn [bind after value events map inserts bank_A bank_B
         ADC1BUF0 ADC1BUF1 ADC1BUF2 ADC1BUF3 ADC1BUF4 ADC1BUF5 ADC1BUF6 ADC1BUF7
         ADC1BUF8 ADC1BUF9 ADC1BUFA ADC1BUFB ADC1BUFC ADC1BUFD ADC1BUFE ADC1BUFF
         read_ADC1BUF ret];
    rewrite ?control_app, ?stores_app, ?insertSample_control;
    cbn [stores flat_map app]; rewrite ?app_nil_r, <- ?app_assoc;
    split; reflexivity.
Qed.

(** *** Successive calls of [insertSample] *)

Lemma inserts_after (vs : list Z) (s : machine) :
  0 <= sample_buffer_current_index s <= N ->
  after (inserts N vs s) = filled N vs s.
Proof.
  revert s. induction vs as [| v vs IH]; intros s Hi.
  - destruct s as [buf i f t a e]. unfold filled; cbn [inserts ret after]; fields.
    rewrite take_nil. cbn [map list_inserts].
    case_ltb; f_equal; lia.
  - cbn [inserts bind after].
    destruct (Z.lt_ge_cases (sample_buffer_current_index s) N) as [Hlt | Hge].
    + rewrite insertSample_room by lia. cbn [after].
      rewrite IH by (fields; lia).
      destruct s as [buf i f t a e]. unfold filled; fields.
      replace (Z.to_nat (N - i)) with (S (Z.to_nat (N - (i + 1)))) by (fields; lia).
      replace (Z.to_nat (i + 1)) with (S (Z.to_nat i)) by (fields; lia).
      cbn [take map list_inserts].
      rewrite list_insert_inserts_lt by lia.
      case_ltb; f_equal; lia.
    + rewrite insertSample_full by lia. cbn [after].
      rewrite IH by (fields; lia).
      destruct s as [buf i f t a e]. unfold filled; fields.
      assert (i = N) as -> by (fields; lia).
      rewrite Z.sub_diag. change (Z.to_nat 0) with 0%nat. rewrite !take_0.
      case_ltb; f_equal; lia.
Qed.

Lemma inserts_stores (vs : list Z) (s : machine) :
  0 <= sample_buffer_current_index s <= N ->
  stores (events (inserts N vs s)) =
  imap (fun k v => (sample_buffer_current_index s + Z.of_nat k, Z.land v 0x3ff))
       (take (Z.to_nat (N - sample_buffer_current_index s)) vs).
Proof.
  revert s. induction vs as [| v vs IH]; intros s Hi.
  - now rewrite take_nil.
  - cbn [inserts bind after events]. rewrite stores_app.
    destruct (Z.lt_ge_cases (sample_buffer_current_index s) N) as [Hlt | Hge].
    + rewrite insertSample_room by lia. cbn [after events].
      rewrite IH by (simpl; lia). simpl.
      replace (Z.to_nat (N - sample_buffer_current_index s))
        with (S (Z.to_nat (N - (sample_buffer_current_index s + 1)))) by lia.
      cbn [take imap]. rewrite Z.add_0_r. f_equal.
      apply imap_ext. intros k x _. simpl. f_equal. lia.
    + rewrite insertSample_full by lia. cbn [after events].
      rewrite IH by (simpl; lia). simpl.
      replace (N - sample_buffer_current_index s) with 0 by lia.
      reflexivity.
Qed.

Lemma handler_filled (hw : adc_regs) (s : machine) :
  0 <= sample_buffer_current_index s <= N ->
  after (_ADCHandler N hw s) = set_AD1IF 0 (filled N (drained hw) s).
Proof. intros Hi. now rewrite handler_after, inserts_after. Qed.

Lemma drained_length (hw : adc_regs) : length (drained hw) = 8%nat.
Proof. unfold drained, completed_bank. now destruct (AD1CON2_BUFS hw =? 0). Qed.

(** *** The foreground entry points *)

Lemma initADC_after (s : machine) :
  after (initADC s) = set_T3CON_ON 0 (set_AD1IF 0 s).
Proof. reflexivity. Qed.

Lemma beginFillingADCBuffer_after (s : machine) :
  after (beginFillingADCBuffer s) =
  Machine (adc_sample_buffer s) 0 0 1 (IFS1_AD1IF s) (IE s).
Proof. reflexivity. Qed.

(** *** The invariant *)

Lemma Forall_list_inserts {A} (P : A -> Prop) (i : nat) (k l : list A) :
  Forall P k -> Forall P l -> Forall P (list_inserts i k l).
Proof.
  intros Hk. revert i. induction Hk as [| y k Hy Hk IH]; intros i Hl; simpl; [assumption |].
  apply Forall_insert; auto.
Qed.

Lemma filled_inv (vs : list Z) (s : machine) : inv N s -> inv N (filled N vs s).
Proof.
  intros (Hi & Hlen & Hrange). unfold inv, filled; simpl. repeat split.
  - lia.
  - lia.
  - now rewrite length_inserts.
  - apply Forall_list_inserts; [| assumption].
    apply List.Forall_forall. intros x Hx. apply in_map_iff in Hx as (v & <- & _).
    apply mask_range.
Qed.

Lemma inserts_stores_ok (vs : list Z) (s : machine) :
  0 <= sample_buffer_current_index s <= N ->
  Forall (store_ok N) (stores (events (inserts N vs s))).
Proof.
  intros Hi. rewrite inserts_stores by assumption.
  apply Forall_forall. intros p Hp.
  apply elem_of_lookup_imap in Hp as (k & v & -> & Hk).
  apply lookup_lt_Some in Hk. rewrite length_take in Hk.
  split; simpl; [lia | apply mask_range].
Qed.

Lemma exec_inv (c : call) (s : machine) :
  inv N s ->
  inv N (after (exec N c s)) /\ Forall (store_ok N) (stores (events (exec N c s))).
Proof.
  intros Hinv. destruct c as [| | hw]; cbn [exec].
  - split; [| constructor].
    rewrite initADC_after. destruct Hinv as (Hi & Hlen & Hrange).
    split; [| split]; fields; assumption.
  - split; [| constructor].
    rewrite beginFillingADCBuffer_after. destruct Hinv as (Hi & Hlen & Hrange).
    split; [| split]; fields; [lia | assumption | assumption].
  - pose proof Hinv as (Hi & _ & _). split.
    + rewrite handler_filled by assumption.
      destruct (filled_inv (drained hw) s Hinv) as (Hi' & Hlen' & Hrange').
      split; [| split]; assumption.
    + destruct (handler_events hw s) as (body & -> & _ & Hst).
      change (EvReadBUFS :: body ++ [EvAD1IF 0]) with ([EvReadBUFS] ++ body ++ [EvAD1IF 0]).
      rewrite !stores_app, Hst. simpl. rewrite app_nil_r.
      now apply inserts_stores_ok.
Qed.

Lemma execs_inv (cs : list call) (s : machine) :
  inv N s ->
  inv N (after (execs N cs s)) /\ Forall (store_ok N) (stores (events (execs N cs s))).
Proof.
  revert s. induction cs as [| c cs IH]; intros s Hinv.
  - split; [assumption | constructor].
  - cbn [execs bind after events]. rewrite stores_app.
    destruct (exec_inv c s Hinv) as [Hinv1 Hst1].
    destruct (IH _ Hinv1) as [Hinv2 Hst2].
    split; [assumption | now apply Forall_app].
Qed.

Lemma reset_inv : inv N (reset N).
Proof.
  unfold inv, reset; simpl. repeat split.
  - lia.
  - lia.
  - apply length_replicate.
  - apply Forall_replicate. lia.
Qed.

(** *** Runs of the handler *)

Lemma insertSample_set_AD1IF (v b : Z) (s : machine) :
  insertSample N v (set_AD1IF b s) =
  Outcome tt (set_AD1IF b (after (insertSample N v s))) (events (insertSample N v s)).
Proof.
  rewrite !insertSample_eq. fields.
  destruct (sample_buffer_current_index s >=? N); reflexivity.
Qed.

Lemma inserts_set_AD1IF (vs : list Z) (b : Z) (s : machine) :
  inserts N vs (set_AD1IF b s) =
  Outcome tt (set_AD1IF b (after (inserts N vs s))) (events (inserts N vs s)).
Proof.
  revert s. induction vs as [| v vs IH]; intros s; [reflexivity |].
  cbn [inserts]. unfold bind. rewrite insertSample_set_AD1IF. fields.
  now rewrite IH.
Qed.

Lemma inserts_app (vs ws : list Z) (s : machine) :
  inserts N (vs ++ ws) s =
  Outcome tt (after (inserts N ws (after (inserts N vs s))))
          (events (inserts N vs s) ++ events (inserts N ws (after (inserts N vs s)))).
Proof.
  revert s. induction vs as [| v vs IH]; intros s.
  - cbn [app inserts ret after events]. now destruct (inserts N ws s) as [[] ? ?].
  - cbn [app inserts]. unfold bind. rewrite IH. fields.
    now rewrite app_assoc.
Qed.

Lemma interrupts_stores (hws : list adc_regs) (s : machine) :
  stores (events (interrupts N hws s)) =
  stores (events (inserts N (concat (map drained hws)) s)).
Proof.
  revert s. induction hws as [| hw hws IH]; intros s; [reflexivity |].
  unfold interrupts in *. cbn [map execs exec concat bind events after].
  rewrite inserts_app, stores_app. fields. rewrite stores_app.
  rewrite IH, handler_after, inserts_set_AD1IF. fields.
  destruct (handler_events hw s) as (body & -> & _ & Hst).
  change (EvReadBUFS :: body ++ [EvAD1IF 0]) with ([EvReadBUFS] ++ body ++ [EvAD1IF 0]).
  rewrite !stores_app, Hst. cbn [stores flat_map app]. now rewrite app_nil_r.
Qed.

Lemma interrupts_after (hw : adc_regs) (hws : list adc_regs) (s : machine) :
  after (interrupts N (hw :: hws) s) =
  set_AD1IF 0 (after (inserts N (concat (map drained (hw :: hws))) s)).
Proof.
  revert hw s. induction hws as [| hw' hws IH]; intros hw s.
  - unfold interrupts. cbn [map execs exec concat bind ret after].
    now rewrite handler_after, app_nil_r.
  - change (after (interrupts N (hw :: hw' :: hws) s))
      with (after (interrupts N (hw' :: hws) (after (_ADCHandler N hw s)))).
    rewrite IH, handler_after, inserts_set_AD1IF. fields.
    change (concat (map drained (hw :: hw' :: hws)))
      with (drained hw ++ concat (map drained (hw' :: hws))).
    rewrite inserts_app. fields. reflexivity.
Qed.

Lemma drained_concat_length (hws : list adc_regs) :
  length (concat (map drained hws)) = (8 * length hws)%nat.
Proof.
  induction hws as [| hw hws IH]; [reflexivity |].
  cbn [map concat]. rewrite length_app, drained_length, IH. simpl. lia.
Qed.

(** *** When the buffer is already full *)

Lemma inserts_full (v : Z) (vs : list Z) (s : machine) :
  N <= sample_buffer_current_index s ->
  inserts N (v :: vs) s =
  Outcome tt (set_full 1 (set_T3CON_ON 0 s))
          (flat_map (fun v => [EvInsert v; EvTimer 0; EvFull 1]) (v :: vs)).
Proof.
  revert v s. induction vs as [| w vs IH]; intros v s Hfull.
  - cbn [inserts]. unfold bind. now rewrite insertSample_full.
  - change (inserts N (v :: w :: vs) s)
      with (bind (insertSample N v) (fun _ => inserts N (w :: vs)) s).
    unfold bind. rewrite insertSample_full by assumption. fields.
    rewrite IH by (fields; assumption). reflexivity.
Qed.

(** *** Lists *)

Lemma list_inserts_0 {A} (k l : list A) :
  list_inserts 0 k l = take (length l) k ++ drop (length k) l.
Proof.
  revert l. induction k as [| y k IH]; intros l.
  - now rewrite take_nil.
  - destruct l as [| x l]; [now rewrite list_inserts_nil |].
    cbn [list_inserts]. rewrite list_inserts_cons, IH. reflexivity.
Qed.

Lemma imap_positions {A B} (f : A -> B) (l : list A) (j : nat) :
  map fst (imap (fun k v => (Z.of_nat (j + k), f v)) l) = map Z.of_nat (seq j (length l)).
Proof.
  revert j. induction l as [| x l IH]; intros j; [reflexivity |].
  cbn [imap map fst length seq]. rewrite Nat.add_0_r. f_equal.
  rewrite <- IH. f_equal. apply imap_ext. intros k y _. cbn. do 2 f_equal. lia.
Qed.

Lemma ramp_add (m : nat) : ramp (8 + m) = ramp 8 ++ ramp m.
Proof.
  unfold ramp. rewrite seq_app, map_app. f_equal.
  change (0 + 8)%nat with (8 + 0)%nat. rewrite <- fmap_add_seq.
  change (fmap (A:=nat) (B:=nat)) with (@map nat nat). rewrite map_map.
  apply map_ext. intros a. f_equal.
  rewrite Nat.add_comm. change 8%nat with (1 * 8)%nat at 1.
  now rewrite Nat.Div0.mod_add.
Qed.

Lemma ramp_mask (n : nat) : map (fun v => Z.land v 0x3ff) (ramp n) = ramp n.
Proof.
  unfold ramp. rewrite map_map. apply map_ext. intros a.
  rewrite mask_mod. apply Z.mod_small.
  pose proof (Nat.mod_upper_bound a 8). change (2 ^ 10) with 1024. lia.
Qed.

Lemma ramp_length (n : nat) : length (ramp n) = n.
Proof. unfold ramp. now rewrite length_map, length_seq. Qed.

Lemma drained_synthetic (bufs : Z) : drained (synthetic bufs) = ramp 8.
Proof.
  unfold drained, completed_bank, synthetic; cbn [AD1CON2_BUFS ADC1BUF].
  destruct (bufs =? 0); reflexivity.
Qed.

Lemma drained_synthetic_concat (bufs : list Z) :
  concat (map drained (map synthetic bufs)) = ramp (8 * length bufs).
Proof.
  induction bufs as [| b bufs IH]; [reflexivity |].
  cbn [map concat length]. rewrite drained_synthetic, IH.
  replace (8 * S (length bufs))%nat with (8 + 8 * length bufs)%nat by lia.
  now rewrite ramp_add.
Qed.

Lemma ramp_take (n m : nat) : (n <= m)%nat -> take n (ramp m) = ramp n.
Proof.
  intros Hle. unfold ramp. rewrite firstn_map, take_seq.
  now replace (n `min` m)%nat with n by lia.
Qed.

(** *** A batch: [beginFillingADCBuffer], then calls of [insertSample] *)

Lemma batch_after (s : machine) (vs : list Z) :
  after (inserts N vs (after (beginFillingADCBuffer s))) =
  Machine
    (list_inserts 0 (map (fun v => Z.land v 0x3ff) (take (Z.to_nat N) vs)) (adc_sample_buffer s))
    (Z.min (Z.of_nat (length vs)) N)
    (if N <? Z.of_nat (length vs) then 1 else 0)
    (if N <? Z.of_nat (length vs) then 0 else 1)
    (IFS1_AD1IF s) (IE s).
Proof.
  rewrite beginFillingADCBuffer_after, inserts_after by (fields; lia).
  unfold filled; fields. rewrite Z.sub_0_r, Z.add_0_l. reflexivity.
Qed.

Lemma batch_buffer (buf vs : list Z) :
  length buf = Z.to_nat N ->
  list_inserts 0 (map (fun v => Z.land v 0x3ff) (take (Z.to_nat N) vs)) buf =
  map (fun v => Z.land v 0x3ff) (take (Z.to_nat N) vs) ++ drop (length vs) buf.
Proof.
  intros Hlen. rewrite list_inserts_0, length_map, length_take, Hlen. f_equal.
  - apply take_ge. rewrite length_map, length_take. lia.
  - destruct (Nat.le_ge_cases (length vs) (Z.to_nat N)) as [Hle | Hge].
    + now replace (Z.to_nat N `min` length vs)%nat with (length vs) by lia.
    + replace (Z.to_nat N `min` length vs)%nat with (Z.to_nat N) by lia.
      now rewrite !drop_ge by lia.
Qed.

Lemma inserts_keep_full (vs : list Z) (s : machine) :
  sample_buffer_full s <> 0 -> sample_buffer_full (after (inserts N vs s)) <> 0.
Proof.
  revert s. induction vs as [| v vs IH]; intros s Hfull; [assumption |].
  cbn [inserts bind after]. apply IH.
  rewrite insertSample_eq. fields.
  destruct (sample_buffer_current_index s >=? N); fields; [lia | assumption].
Qed.

(** ** The claims *)

(** C2.  One invocation of [_ADCHandler]: the handler reads the bit
    [BUFS]; when it says that the converter is filling the slots 0-7 the
    handler reads the slots 8-15 in increasing order, and the slots 0-7
    otherwise; each value read is handed to [insertSample] once, before
    the next slot is read; the interrupt flag is cleared as the very
    last access, after all 8 reads. *)
Theorem handler_drains_completed_bank (hw : adc_regs) (s : machine) :
  let r := _ADCHandler N hw s in
  let bank := if AD1CON2_BUFS hw =? 0
              then [8; 9; 10; 11; 12; 13; 14; 15]%nat
              else [0; 1; 2; 3; 4; 5; 6; 7]%nat in
  exists body,
    events r = EvReadBUFS :: body ++ [EvAD1IF 0] /\
    control body = flat_map (fun k => [EvReadBUF k; EvInsert (ADC1BUF hw k)]) bank /\
    after r = set_AD1IF 0 (after (inserts N (map (ADC1BUF hw) bank) s)) /\
    IFS1_AD1IF (after r) = 0.
Proof.
  intros r bank. subst r.
  destruct (handler_events hw s) as (body & Hev & Hctl & _).
  exists body. rewrite handler_after. repeat split; assumption.
Qed.

(** *** The flag over a batch *)

Lemma map_constant {A B} (f : A -> B) (c : B) (l : list A) :
  (forall x, In x l -> f x = c) -> map f l = replicate (length l) c.
Proof.
  induction l as [| x l IH]; intros Hf; [reflexivity |].
  cbn [map length replicate]. rewrite Hf by (left; reflexivity).
  f_equal. apply IH. intros y Hy. apply Hf. now right.
Qed.

Lemma flag_history_eq (s : machine) (vs : list Z) :
  flag_history N s vs =
  replicate (S (Nat.min (length vs) (Z.to_nat N))) 0 ++
  replicate (length vs - Z.to_nat N) 1.
Proof.
  unfold flag_history.
  set (m := Nat.min (length vs) (Z.to_nat N)).
  replace (S (length vs)) with (S m + (length vs - Z.to_nat N))%nat by lia.
  rewrite seq_app, map_app. f_equal.
  - etransitivity; [apply (map_constant _ 0) | now rewrite length_seq].
    intros k Hk. apply in_seq in Hk. rewrite batch_after. fields.
    rewrite length_take. case_ltb; [lia | reflexivity].
  - etransitivity; [apply (map_constant _ 1) | now rewrite length_seq].
    intros k Hk. apply in_seq in Hk. rewrite batch_after. fields.
    rewrite length_take. case_ltb; [reflexivity | lia].
Qed.

Lemma rises_ones (j : nat) : rises (replicate j 1) = 0%nat.
Proof.
  induction j as [| j IH]; [reflexivity |].
  cbn [replicate rises]. rewrite IH. now destruct (replicate j 1).
Qed.

Lemma rises_zeros_ones (m j : nat) :
  rises (replicate (S m) 0 ++ replicate j 1) = match j with O => 0%nat | S _ => 1%nat end.
Proof.
  induction m as [| m IH].
  - destruct j as [| j]; [reflexivity |].
    change (rises (replicate 1 0 ++ replicate (S j) 1))
      with (Nat.add 1 (rises (replicate (S j) 1))).
    now rewrite rises_ones.
  - change (rises (replicate (S (S m)) 0 ++ replicate j 1))
      with (Nat.add 0 (rises (replicate (S m) 0 ++ replicate j 1))).
    now rewrite IH.
Qed.

(** C3, as the code has it.  In a batch [sample_buffer_full] goes from
    zero to non-zero at most once, and exactly once when the batch has
    more than [SAMPLE_BUFFER_SIZE] calls of [insertSample] (not at all
    otherwise, as when it is cut short by a restart): the flag is zero
    when [beginFillingADCBuffer] returns and after each of the first
    [SAMPLE_BUFFER_SIZE] calls (the last of which makes the write index
    equal to [SAMPLE_BUFFER_SIZE]), and it is one after every later call,
    so that the flag is set by the first call that finds the write index
    already equal to [SAMPLE_BUFFER_SIZE].  Neither [insertSample] nor
    the handler nor [initADC] ever clears the flag;
    [beginFillingADCBuffer] does. *)
Theorem full_set_by_first_insert_past_size (s : machine) (vs : list Z) :
  let b := after (beginFillingADCBuffer s) in
  let n := Z.of_nat (length vs) in
  let s' := after (inserts N vs b) in
  sample_buffer_full b = 0 /\
  sample_buffer_current_index s' = Z.min n N /\
  sample_buffer_full s' = (if N <? n then 1 else 0) /\
  (forall hws,
     sample_buffer_full (after (interrupts N hws b)) =
     if N <? 8 * Z.of_nat (length hws) then 1 else 0) /\
  (forall v t, sample_buffer_full t <> 0 ->
               sample_buffer_full (after (insertSample N v t)) <> 0) /\
  (forall hw t, sample_buffer_full t <> 0 ->
                sample_buffer_full (after (_ADCHandler N hw t)) <> 0) /\
  (forall t, sample_buffer_full (after (initADC t)) = sample_buffer_full t) /\
  flag_history N s vs =
    replicate (S (Nat.min (length vs) (Z.to_nat N))) 0 ++
    replicate (length vs - Z.to_nat N) 1 /\
  rises (flag_history N s vs) = (if N <? n then 1%nat else 0%nat).
Proof.
  intros b n s'. subst b n s'. rewrite batch_after. fields.
  split; [reflexivity |]. split; [reflexivity |]. split; [reflexivity |].
  split; [| split; [| split; [| split; [| split]]]].
  - intros [| hw hws].
    + cbn [length]. case_ltb; [lia | reflexivity].
    + rewrite interrupts_after, batch_after. fields.
      rewrite drained_concat_length. case_ltb; cbn [length] in *; lia.
  - intros v t Hfull. apply (inserts_keep_full [v] t Hfull).
  - intros hw t Hfull. rewrite handler_after. fields.
    now apply inserts_keep_full.
  - intros t. reflexivity.
  - apply flag_history_eq.
  - rewrite flag_history_eq, rises_zeros_ones.
    destruct (length vs - Z.to_nat N)%nat as [| j] eqn:Hj; case_ltb; first [reflexivity | lia].
Qed.

(** C4, as the code has it.  With [SAMPLE_BUFFER_SIZE] a multiple of 8,
    after [initADC], [beginFillingADCBuffer] and [SAMPLE_BUFFER_SIZE / 8]
    invocations of the handler that each drain the values 0..7, the
    buffer holds 0,1,...,7,0,1,... and the write index is
    [SAMPLE_BUFFER_SIZE], but [sample_buffer_full] is still zero and
    Timer3 still runs; after one more invocation [sample_buffer_full] is
    one, Timer3 is off and the buffer is unchanged. *)
Theorem nominal_fill (s : machine) (bufs : list Z) (last : Z) :
  N = 8 * Z.of_nat (length bufs) ->
  length (adc_sample_buffer s) = Z.to_nat N ->
  let started := after (execs N [CallInit; CallStart] s) in
  let s1 := after (interrupts N (map synthetic bufs) started) in
  let s2 := after (interrupts N (map synthetic (bufs ++ [last])) started) in
  (adc_sample_buffer s1 = ramp (Z.to_nat N) /\
   sample_buffer_current_index s1 = N /\
   sample_buffer_full s1 = 0 /\ T3CON_ON s1 = 1) /\
  (adc_sample_buffer s2 = ramp (Z.to_nat N) /\
   sample_buffer_current_index s2 = N /\
   sample_buffer_full s2 = 1 /\ T3CON_ON s2 = 0).
Proof.
  intros HN Hlen started s1 s2.
  assert (Hstart : started = after (beginFillingADCBuffer (after (initADC s)))) by reflexivity.
  assert (Hbuf : forall m, (Z.to_nat N <= m)%nat ->
            list_inserts 0 (map (fun v => Z.land v 0x3ff) (take (Z.to_nat N) (ramp m)))
                         (adc_sample_buffer (after (initADC s))) = ramp (Z.to_nat N)).
  { intros m Hm. rewrite batch_buffer by (rewrite initADC_after; fields; assumption).
    rewrite ramp_take, ramp_mask by assumption.
    rewrite drop_ge by (rewrite initADC_after, ramp_length; fields; lia).
    apply app_nil_r. }
  split.
  - subst s1. destruct bufs as [| b bufs]; [cbn [length] in HN; lia |].
    cbn [map]. rewrite interrupts_after, Hstart, batch_after.
    change (synthetic b :: map synthetic bufs) with (map synthetic (b :: bufs)).
    rewrite drained_synthetic_concat, ramp_length. fields.
    rewrite Hbuf by lia.
    repeat split; case_ltb; lia.
  - subst s2. destruct bufs as [| b bufs]; [cbn [length] in HN; lia |].
    cbn [map app]. rewrite interrupts_after, Hstart, batch_after.
    change (synthetic b :: map synthetic (bufs ++ [last]))
      with (map synthetic (b :: bufs ++ [last])).
    rewrite drained_synthetic_concat, ramp_length. cbn [length] in *.
    rewrite length_app in *. cbn [length] in *. fields.
    rewrite Hbuf by lia.
    repeat split; case_ltb; lia.
Qed.

(** C6.  Whatever the state before, when [beginFillingADCBuffer]
    returns the write index is 0, [sample_buffer_full] is 0 and Timer3
    runs; and a batch started from one state cannot be told from a batch
    started from any other: the same invocations of the handler store
    the same values at the same positions and lead to the same written
    samples, write index, flag and trigger state. *)
Theorem restart_indistinguishable (s1 : machine) :
  let b1 := after (beginFillingADCBuffer s1) in
  (sample_buffer_current_index b1 = 0 /\ sample_buffer_full b1 = 0 /\ T3CON_ON b1 = 1) /\
  forall (s2 : machine) (hws : list adc_regs),
    length (adc_sample_buffer s1) = Z.to_nat N ->
    length (adc_sample_buffer s2) = Z.to_nat N ->
    let b2 := after (beginFillingADCBuffer s2) in
    observable b1 = observable b2 /\
    observable (after (interrupts N hws b1)) = observable (after (interrupts N hws b2)) /\
    stores (events (interrupts N hws b1)) = stores (events (interrupts N hws b2)).
Proof.
  intros b1. split; [repeat split |].
  intros s2 hws Hlen1 Hlen2 b2. subst b1 b2. split; [reflexivity |]. split.
  - destruct hws as [| hw hws]; [reflexivity |].
    rewrite !interrupts_after, !batch_after. unfold observable; fields.
    rewrite !batch_buffer by assumption.
    set (K := map _ (take (Z.to_nat N) _)).
    assert (HK : Z.to_nat (Z.min (Z.of_nat (length (concat (map drained (hw :: hws))))) N)
                 = length K).
    { subst K. rewrite length_map, length_take. lia. }
    rewrite HK, !take_app_length. reflexivity.
  - rewrite !interrupts_stores, !inserts_stores
      by (rewrite beginFillingADCBuffer_after; fields; lia).
    reflexivity.
Qed.

(** C7.  In every state that the driver can reach from reset the write
    index is between 0 and [SAMPLE_BUFFER_SIZE], and every store that
    was made into the sample buffer on the way went to a position in
    [0, SAMPLE_BUFFER_SIZE); a call of [insertSample] stores, if at all,
    at the write index and only when it is below [SAMPLE_BUFFER_SIZE]. *)
Theorem write_index_in_bounds (cs : list call) :
  let r := execs N cs (reset N) in
  0 <= sample_buffer_current_index (after r) <= N /\
  length (adc_sample_buffer (after r)) = Z.to_nat N /\
  Forall (fun p => 0 <= fst p < N) (stores (events r)) /\
  (forall v s i x, In (i, x) (stores (events (insertSample N v s))) ->
                   i = sample_buffer_current_index s /\ i < N).
Proof.
  intros r. subst r.
  destruct (execs_inv cs (reset N) reset_inv) as [(Hi & Hlen & _) Hst].
  split; [assumption | split; [assumption | split]].
  - eapply Forall_impl; [exact Hst |]. intros p [Hp _]. exact Hp.
  - intros v s i x. rewrite insertSample_eq. cbv zeta.
    destruct (Z.geb_spec (sample_buffer_current_index s) N) as [Hge | Hlt];
      cbn; intros Hin; [contradiction |].
    destruct Hin as [[= <- _] | []]. split; [reflexivity | assumption].
Qed.

(** C8.  Every sample that the driver stores in the sample buffer is
    between 0 and 1023: the value stored by [insertSample] is its
    argument masked to 10 bits, and in every state reached from reset
    every entry of the buffer is between 0 and 1023. *)
Theorem samples_in_range (cs : list call) :
  let r := execs N cs (reset N) in
  Forall (fun x => 0 <= x <= 1023) (adc_sample_buffer (after r)) /\
  Forall (fun p => 0 <= snd p <= 1023) (stores (events r)) /\
  (forall v s i x, In (i, x) (stores (events (insertSample N v s))) ->
                   x = Z.land v 0x3ff /\ 0 <= x <= 1023).
Proof.
  intros r. subst r.
  destruct (execs_inv cs (reset N) reset_inv) as [(_ & _ & Hrange) Hst].
  split; [assumption | split].
  - eapply Forall_impl; [exact Hst |]. intros p [_ Hp]. exact Hp.
  - intros v s i x. rewrite insertSample_eq. cbv zeta.
    destruct (sample_buffer_current_index s >=? N); cbn; intros Hin; [contradiction |].
    destruct Hin as [[= _ <-] | []]. split; [reflexivity | apply mask_range].
Qed.

(** C9.  [beginFillingADCBuffer] changes the write index, the flag and
    the timer bit and nothing else: it makes no store into the sample
    buffer, whose entries are all unchanged, and after the restart an
    entry keeps its old value until a call of [insertSample] reaches its
    position. *)
Theorem start_keeps_samples (s : machine) :
  let r := beginFillingADCBuffer s in
  after r = Machine (adc_sample_buffer s) 0 0 1 (IFS1_AD1IF s) (IE s) /\
  events r = [EvDisableInterrupts; EvIndex 0; EvFull 0; EvTimer 1;
              EvRestoreInterrupts (IE s)] /\
  forall (vs : list Z) (j : nat),
    (length vs <= j)%nat ->
    adc_sample_buffer (after (inserts N vs (after r))) !! j = adc_sample_buffer s !! j.
Proof.
  intros r. subst r. split; [reflexivity | split; [reflexivity |]].
  intros vs j Hj. rewrite batch_after. fields.
  apply list_lookup_inserts_ge. rewrite length_map, length_take. lia.
Qed.

Lemma insertSample_stays_full (v : Z) (s : machine) :
  N <= sample_buffer_current_index s ->
  N <= sample_buffer_current_index (after (insertSample N v s)).
Proof. intros Hfull. now rewrite insertSample_full. Qed.

(** C10.  When the write index has reached [SAMPLE_BUFFER_SIZE], a call
    of [insertSample] stores nothing, leaves the sample buffer and the
    write index as they are, sets [sample_buffer_full] and turns Timer3
    off, and a further call changes nothing more; the handler still
    reads all 8 slots of the completed bank, calls [insertSample] for
    each and clears the interrupt flag last, and leaves the buffer and
    the write index as they are. *)
Theorem insert_when_full (s : machine) (v w : Z) (hw : adc_regs) :
  N <= sample_buffer_current_index s ->
  let s1 := after (insertSample N v s) in
  let r := _ADCHandler N hw s in
  (s1 = set_full 1 (set_T3CON_ON 0 s) /\
   events (insertSample N v s) = [EvInsert v; EvTimer 0; EvFull 1]) /\
  after (insertSample N w s1) = s1 /\
  after r = set_AD1IF 0 s1 /\
  events r =
    EvReadBUFS ::
    flat_map (fun k => [EvReadBUF k; EvInsert (ADC1BUF hw k); EvTimer 0; EvFull 1])
             (completed_bank hw) ++
    [EvAD1IF 0].
Proof.
  intros Hfull s1 r. subst s1 r.
  rewrite (insertSample_full v s Hfull). fields.
  split; [split; reflexivity | split].
  - rewrite insertSample_full by (fields; assumption). reflexivity.
  - unfold _ADCHandler, completed_bank.
    cbn [bind after value events read_BUFS].
    destruct (AD1CON2_BUFS hw =? 0);
      cbn [bind after value events write_AD1IF effect
           ADC1BUF0 ADC1BUF1 ADC1BUF2 ADC1BUF3 ADC1BUF4 ADC1BUF5 ADC1BUF6 ADC1BUF7
           ADC1BUF8 ADC1BUF9 ADC1BUFA ADC1BUFB ADC1BUFC ADC1BUFD ADC1BUFE ADC1BUFF
           read_ADC1BUF];
      rewrite !insertSample_full by (repeat apply insertSample_stays_full; assumption);
      split; reflexivity.
Qed.

(** ** Further properties of the driver *)

(** *** Runs of the handler, in closed form *)

Lemma interrupts_nil (s : machine) : after (interrupts N [] s) = s.
Proof. reflexivity. Qed.

Lemma interrupts_cons (hw : adc_regs) (hws : list adc_regs) (s : machine) :
  after (interrupts N (hw :: hws) s) = after (interrupts N hws (after (_ADCHandler N hw s))).
Proof. reflexivity. Qed.

Lemma interrupts_filled (hws : list adc_regs) (s : machine) :
  0 <= sample_buffer_current_index s <= N ->
  let s' := after (interrupts N hws s) in
  adc_sample_buffer s' = adc_sample_buffer (filled N (concat (map drained hws)) s) /\
  sample_buffer_current_index s' =
    Z.min (sample_buffer_current_index s + 8 * Z.of_nat (length hws)) N /\
  sample_buffer_full s' =
    (if N - sample_buffer_current_index s <? 8 * Z.of_nat (length hws)
     then 1 else sample_buffer_full s) /\
  T3CON_ON s' =
    (if N - sample_buffer_current_index s <? 8 * Z.of_nat (length hws)
     then 0 else T3CON_ON s).
Proof.
  intros Hi s'. subst s'. destruct hws as [| hw hws].
  - rewrite interrupts_nil. unfold filled; cbn [map concat length take list_inserts]; fields.
    rewrite take_nil. cbn [map list_inserts].
    repeat split; case_ltb; lia.
  - rewrite interrupts_after, inserts_after by assumption.
    unfold filled; fields. rewrite drained_concat_length.
    replace (Z.of_nat (8 * length (hw :: hws))) with (8 * Z.of_nat (length (hw :: hws))) by lia.
    repeat split.
Qed.

(** X4.  Between two restarts the write index never goes back: more
    invocations of the handler give a write index that is at least as
    large, and after [k] invocations it is the old index plus [8 k], cut
    at [SAMPLE_BUFFER_SIZE]. *)
Theorem index_monotone (hws1 hws2 : list adc_regs) (s : machine) :
  0 <= sample_buffer_current_index s <= N ->
  let i1 := sample_buffer_current_index (after (interrupts N hws1 s)) in
  let i2 := sample_buffer_current_index (after (interrupts N (hws1 ++ hws2) s)) in
  i1 = Z.min (sample_buffer_current_index s + 8 * Z.of_nat (length hws1)) N /\
  sample_buffer_current_index s <= i1 /\ i1 <= i2 /\ i2 <= N.
Proof.
  intros Hi i1 i2. subst i1 i2.
  destruct (interrupts_filled hws1 s Hi) as (_ & -> & _).
  destruct (interrupts_filled (hws1 ++ hws2) s Hi) as (_ & -> & _).
  rewrite length_app. lia.
Qed.

(** X5.  When at least 8 entries of the buffer are free, one invocation
    of the handler loses nothing: the 8 values of the completed bank are
    stored, masked, at the write index and the 7 positions after it, the
    write index grows by 8, and the flag and Timer3 are left as they
    are. *)
Theorem handler_stores_whole_bank (hw : adc_regs) (s : machine) :
  0 <= sample_buffer_current_index s ->
  sample_buffer_current_index s + 8 <= N ->
  let i := sample_buffer_current_index s in
  let r := _ADCHandler N hw s in
  adc_sample_buffer (after r) =
    list_inserts (Z.to_nat i) (map (fun v => Z.land v 0x3ff) (drained hw))
                 (adc_sample_buffer s) /\
  stores (events r) = imap (fun k v => (i + Z.of_nat k, Z.land v 0x3ff)) (drained hw) /\
  sample_buffer_current_index (after r) = i + 8 /\
  sample_buffer_full (after r) = sample_buffer_full s /\
  T3CON_ON (after r) = T3CON_ON s.
Proof.
  intros Hpos Hroom i r. subst i r.
  assert (Hi : 0 <= sample_buffer_current_index s <= N) by lia.
  assert (Htake : take (Z.to_nat (N - sample_buffer_current_index s)) (drained hw) = drained hw)
    by (apply take_ge; rewrite drained_length; lia).
  split; [| split].
  - rewrite handler_filled by assumption. unfold filled; fields. now rewrite Htake.
  - destruct (handler_events hw s) as (body & -> & _ & Hst).
    change (EvReadBUFS :: body ++ [EvAD1IF 0]) with ([EvReadBUFS] ++ body ++ [EvAD1IF 0]).
    rewrite !stores_app, Hst, inserts_stores, Htake by assumption.
    cbn [stores flat_map app]. now rewrite app_nil_r.
  - rewrite handler_filled by assumption. unfold filled; fields.
    rewrite drained_length. repeat split; case_ltb; lia.
Qed.

(** X6.  When fewer than 8 entries of the buffer are free, one
    invocation of the handler stores only as many values of the
    completed bank as there are free entries, in order, and drops the
    others; the write index becomes [SAMPLE_BUFFER_SIZE], the flag is set
    and Timer3 is turned off. *)
Theorem handler_fills_and_completes (hw : adc_regs) (s : machine) :
  0 <= sample_buffer_current_index s <= N ->
  N < sample_buffer_current_index s + 8 ->
  let i := sample_buffer_current_index s in
  let r := _ADCHandler N hw s in
  let kept := take (Z.to_nat (N - i)) (drained hw) in
  adc_sample_buffer (after r) =
    list_inserts (Z.to_nat i) (map (fun v => Z.land v 0x3ff) kept) (adc_sample_buffer s) /\
  stores (events r) = imap (fun k v => (i + Z.of_nat k, Z.land v 0x3ff)) kept /\
  Z.of_nat (length kept) = N - i /\
  sample_buffer_current_index (after r) = N /\
  sample_buffer_full (after r) = 1 /\
  T3CON_ON (after r) = 0.
Proof.
  intros Hi Hless i r kept. subst i r kept.
  split; [| split; [| split]].
  - rewrite handler_filled by assumption. reflexivity.
  - destruct (handler_events hw s) as (body & -> & _ & Hst).
    change (EvReadBUFS :: body ++ [EvAD1IF 0]) with ([EvReadBUFS] ++ body ++ [EvAD1IF 0]).
    rewrite !stores_app, Hst, inserts_stores by assumption.
    cbn [stores flat_map app]. now rewrite app_nil_r.
  - rewrite length_take, drained_length. lia.
  - rewrite handler_filled by assumption. unfold filled; fields.
    rewrite drained_length. repeat split; case_ltb; lia.
Qed.

(** *** A batch *)

Lemma batch_interrupts (s : machine) (hws : list adc_regs) :
  length (adc_sample_buffer s) = Z.to_nat N ->
  let vs := concat (map drained hws) in
  let s' := after (interrupts N hws (after (beginFillingADCBuffer s))) in
  adc_sample_buffer s' =
    map (fun v => Z.land v 0x3ff) (take (Z.to_nat N) vs) ++ drop (length vs) (adc_sample_buffer s) /\
  sample_buffer_current_index s' = Z.min (8 * Z.of_nat (length hws)) N /\
  sample_buffer_full s' = (if N <? 8 * Z.of_nat (length hws) then 1 else 0) /\
  T3CON_ON s' = (if N <? 8 * Z.of_nat (length hws) then 0 else 1).
Proof.
  intros Hlen vs s'. subst vs s'.
  destruct (interrupts_filled hws (after (beginFillingADCBuffer s))) as (Hb & Hi & Hf & Ht).
  { rewrite beginFillingADCBuffer_after; fields; lia. }
  rewrite Hb, Hi, Hf, Ht. rewrite beginFillingADCBuffer_after. unfold filled; fields.
  rewrite Z.sub_0_r, Z.add_0_l. change (Z.to_nat 0) with 0%nat.
  rewrite batch_buffer by assumption.
  repeat split.
Qed.

(** X1.  The buffer holds the samples of a batch in the order of their
    conversion: after [beginFillingADCBuffer] and any number of
    invocations of the handler, the buffer starts with the values that
    were drained, masked and in the order in which they were drained,
    cut at [SAMPLE_BUFFER_SIZE]; the entries behind them are those of
    the state before.  The state before may be one in the middle of a
    batch: nothing of the values written since the earlier start is
    mixed in. *)
Theorem batch_samples_in_order (s : machine) (hws : list adc_regs) :
  length (adc_sample_buffer s) = Z.to_nat N ->
  let vs := concat (map drained hws) in
  adc_sample_buffer (after (interrupts N hws (after (beginFillingADCBuffer s)))) =
  map (fun v => Z.land v 0x3ff) (take (Z.to_nat N) vs) ++ drop (length vs) (adc_sample_buffer s).
Proof.
  intros Hlen vs. subst vs.
  destruct (batch_interrupts s hws Hlen) as (Hb & _). exact Hb.
Qed.

(** X3.  In a batch no position of the buffer is written twice and none
    is skipped: [beginFillingADCBuffer] followed by [k] invocations of
    the handler makes exactly [min (8 k) SAMPLE_BUFFER_SIZE] stores, at
    the positions 0, 1, 2, ... in this order. *)
Theorem batch_store_positions (s : machine) (hws : list adc_regs) :
  let r := (beginFillingADCBuffer ;; interrupts N hws) s in
  map fst (stores (events r)) =
  map Z.of_nat (seq 0 (Nat.min (8 * length hws) (Z.to_nat N))).
Proof.
  intros r. subst r. cbn [bind after events].
  rewrite stores_app, interrupts_stores, inserts_stores
    by (rewrite beginFillingADCBuffer_after; fields; lia).
  rewrite beginFillingADCBuffer_after. fields. cbn [stores flat_map app].
  rewrite Z.sub_0_r.
  assert (Hlen : length (take (Z.to_nat N) (concat (map drained hws)))
                 = Nat.min (8 * length hws) (Z.to_nat N))
    by (rewrite length_take, drained_concat_length; lia).
  rewrite <- Hlen. clear Hlen.
  apply (imap_positions (fun v => Z.land v 0x3ff) _ 0%nat).
Qed.

(** *** The flag and the state it announces *)

Lemma exec_complete_inv (c : call) (s : machine) :
  inv N s -> complete_inv N s -> complete_inv N (after (exec N c s)).
Proof.
  intros (Hi & _ & _) Hc. destruct c as [| | hw]; cbn [exec]; unfold complete_inv in *.
  - rewrite initADC_after; fields. intros Hf. destruct (Hc Hf) as [-> _]. split; reflexivity.
  - rewrite beginFillingADCBuffer_after; fields. intros Hf. now contradiction Hf.
  - rewrite handler_filled by assumption. unfold filled; fields.
    rewrite drained_length. change (Z.of_nat 8) with 8.
    destruct (Z.ltb_spec (N - sample_buffer_current_index s) 8) as [Hlt | Hge].
    + intros _. split; [lia | reflexivity].
    + intros Hf. destruct (Hc Hf) as [Heq _]. lia.
Qed.

Lemma execs_complete_inv (cs : list call) (s : machine) :
  inv N s -> complete_inv N s -> complete_inv N (after (execs N cs s)).
Proof.
  revert s. induction cs as [| c cs IH]; intros s Hinv Hc; [assumption |].
  cbn [execs bind after]. apply IH.
  - now apply exec_inv.
  - now apply exec_complete_inv.
Qed.

(** X2.  In every state that the driver reaches from reset, a non-zero
    [sample_buffer_full] means that the batch is complete: the write
    index is [SAMPLE_BUFFER_SIZE] and Timer3 is off; and from then on
    further invocations of the handler leave the sample buffer, the
    write index and the stopped timer as they are and keep the flag set,
    so that the samples can be read at leisure. *)
Theorem full_means_complete (cs : list call) (hws : list adc_regs) :
  let s := after (execs N cs (reset N)) in
  sample_buffer_full s <> 0 ->
  (sample_buffer_current_index s = N /\ T3CON_ON s = 0) /\
  let s' := after (interrupts N hws s) in
  adc_sample_buffer s' = adc_sample_buffer s /\
  sample_buffer_current_index s' = N /\
  sample_buffer_full s' <> 0 /\
  T3CON_ON s' = 0.
Proof.
  intros s Hf. subst s.
  destruct (execs_inv cs (reset N) reset_inv) as [Hinv _].
  destruct (execs_complete_inv cs (reset N) reset_inv) as [Hidx Hoff]; [| exact Hf |].
  { intros Hne. now contradiction Hne. }
  split; [split; assumption |].
  destruct Hinv as (Hi & _ & _).
  destruct (interrupts_filled hws _ Hi) as (Hb & Hi' & Hf' & Ht').
  cbv zeta. rewrite Hb, Hi', Hf', Ht', Hidx, Hoff.
  unfold filled; fields. rewrite Hidx, Z.sub_diag. change (Z.to_nat 0) with 0%nat.
  rewrite take_0. cbn [map list_inserts].
  repeat split; case_ltb; try lia; assumption.
Qed.

(** *** The wait of [testADC] *)

Lemma wait_full_eq (hws : list adc_regs) (s : machine) :
  wait_full N hws s =
  if sample_buffer_full s =? 0 then
    match hws with
    | [] => Outcome None s []
    | hw :: hws => (_ADCHandler N hw ;; wait_full N hws) s
    end
  else Outcome (Some hws) s [].
Proof. destruct hws; reflexivity. Qed.

Lemma wait_full_run (hws : list adc_regs) (s : machine) :
  0 <= sample_buffer_current_index s <= N ->
  sample_buffer_full s = 0 ->
  let need := S (Z.to_nat ((N - sample_buffer_current_index s) / 8)) in
  ((need <= length hws)%nat ->
     value (wait_full N hws s) = Some (drop need hws) /\
     after (wait_full N hws s) = after (interrupts N (take need hws) s)) /\
  ((length hws < need)%nat ->
     value (wait_full N hws s) = None /\
     after (wait_full N hws s) = after (interrupts N hws s)).
Proof.
  revert s. induction hws as [| hw hws IH]; intros s Hi Hf need.
  - rewrite wait_full_eq, Hf. cbn [Z.eqb value after length].
    split; [lia | intros _; split; reflexivity].
  - rewrite wait_full_eq, Hf. cbn [Z.eqb bind value after].
    set (s1 := after (_ADCHandler N hw s)).
    assert (Hs1 : s1 = set_AD1IF 0 (filled N (drained hw) s))
      by (subst s1; now rewrite handler_filled).
    destruct (Z.lt_ge_cases (N - sample_buffer_current_index s) 8) as [Hlt | Hge].
    + assert (Hneed : need = 1%nat)
        by (subst need; rewrite Z.div_small by lia; reflexivity).
      assert (Hf1 : sample_buffer_full s1 = 1).
      { rewrite Hs1. unfold filled; fields. rewrite drained_length.
        case_ltb; [reflexivity | lia]. }
      rewrite wait_full_eq, Hf1, Hneed. cbn [Z.eqb value after length take drop].
      split; [intros _; split; reflexivity | lia].
    + assert (Hi1 : sample_buffer_current_index s1 = sample_buffer_current_index s + 8).
      { rewrite Hs1. unfold filled; fields. rewrite drained_length. lia. }
      assert (Hf1 : sample_buffer_full s1 = 0).
      { rewrite Hs1. unfold filled; fields. rewrite drained_length, Hf.
        case_ltb; [lia | reflexivity]. }
      assert (Hneed : need = S (S (Z.to_nat ((N - sample_buffer_current_index s1) / 8)))).
      { subst need. rewrite Hi1.
        replace (N - sample_buffer_current_index s)
          with (N - (sample_buffer_current_index s + 8) + 1 * 8) by lia.
        rewrite Z.div_add by lia.
        assert (0 <= (N - (sample_buffer_current_index s + 8)) / 8)
          by (apply Z.div_pos; lia).
        lia. }
      destruct (IH s1) as [Hexit Hspin]; [lia | assumption |].
      rewrite Hneed. cbn [length take drop]. rewrite interrupts_cons. fold s1.
      split; intros Hlen; [apply Hexit | apply Hspin]; lia.
Qed.

(** X7.  [testADC] gets its samples: when the converter delivers at
    least [SAMPLE_BUFFER_SIZE / 8 + 1] completed banks after the start,
    the wait for [sample_buffer_full] ends after exactly that many
    invocations of the handler, and then the buffer holds the first
    [SAMPLE_BUFFER_SIZE] drained values, masked and in order, the write
    index is [SAMPLE_BUFFER_SIZE] and Timer3 is off. *)
Theorem testADC_fill_completes (s : machine) (hws : list adc_regs) :
  length (adc_sample_buffer s) = Z.to_nat N ->
  let need := S (Z.to_nat (N / 8)) in
  (need <= length hws)%nat ->
  let r := testADC_fill N hws s in
  value r = Some (drop need hws) /\
  adc_sample_buffer (after r) =
    map (fun v => Z.land v 0x3ff) (take (Z.to_nat N) (concat (map drained hws))) /\
  sample_buffer_current_index (after r) = N /\
  sample_buffer_full (after r) = 1 /\
  T3CON_ON (after r) = 0.
Proof.
  intros Hlen need Hneed r. subst r. unfold testADC_fill. cbn [bind value after].
  set (b := after (beginFillingADCBuffer s)).
  assert (Hb : b = Machine (adc_sample_buffer s) 0 0 1 (IFS1_AD1IF s) (IE s)) by reflexivity.
  destruct (wait_full_run hws b) as [Hexit _];
    [rewrite Hb; fields; lia | rewrite Hb; reflexivity |].
  replace (sample_buffer_current_index b) with 0 in Hexit by (rewrite Hb; reflexivity).
  rewrite Z.sub_0_r in Hexit. fold need in Hexit.
  destruct (Hexit Hneed) as [-> ->]. split; [reflexivity |].
  subst b.
  destruct (batch_interrupts s (take need hws) Hlen) as (Hbuf & Hidx & Hfull & Hoff).
  rewrite Hbuf, Hidx, Hfull, Hoff.
  assert (Hlt : N / 8 * 8 <= N < N / 8 * 8 + 8).
  { pose proof (Z.div_mod N 8 ltac:(lia)). pose proof (Z.mod_pos_bound N 8 ltac:(lia)). lia. }
  assert (Hdiv : 0 <= N / 8) by (apply Z.div_pos; lia).
  assert (Hk : length (take need hws) = need) by (rewrite length_take; lia).
  rewrite Hk.
  assert (Hcat : concat (map drained hws) =
                 concat (map drained (take need hws)) ++ concat (map drained (drop need hws))).
  { rewrite <- concat_app, <- map_app. now rewrite take_drop. }
  rewrite Hcat, take_app_le by (rewrite drained_concat_length, Hk; lia).
  rewrite drop_ge, app_nil_r by (rewrite drained_concat_length, Hk; lia).
  repeat split; case_ltb; lia.
Qed.

(** X8.  [testADC] has no way out of its wait but the flag: when the
    converter delivers fewer than [SAMPLE_BUFFER_SIZE / 8 + 1] completed
    banks, the loop is still spinning after the last of them, with the
    flag at zero and Timer3 still running. *)
Theorem testADC_fill_spins (s : machine) (hws : list adc_regs) :
  (length hws <= Z.to_nat (N / 8))%nat ->
  let r := testADC_fill N hws s in
  value r = None /\
  sample_buffer_full (after r) = 0 /\
  T3CON_ON (after r) = 1 /\
  sample_buffer_current_index (after r) = 8 * Z.of_nat (length hws).
Proof.
  intros Hfew r. subst r. unfold testADC_fill. cbn [bind value after].
  set (b := after (beginFillingADCBuffer s)).
  assert (Hb : b = Machine (adc_sample_buffer s) 0 0 1 (IFS1_AD1IF s) (IE s)) by reflexivity.
  assert (Hi : 0 <= sample_buffer_current_index b <= N) by (rewrite Hb; fields; lia).
  destruct (wait_full_run hws b) as [_ Hspin]; [assumption | rewrite Hb; reflexivity |].
  replace (sample_buffer_current_index b) with 0 in Hspin by (rewrite Hb; reflexivity).
  rewrite Z.sub_0_r in Hspin.
  destruct Hspin as [-> ->]; [lia |]. split; [reflexivity |].
  destruct (interrupts_filled hws b Hi) as (_ & Hidx & Hfull & Hon).
  rewrite Hidx, Hfull, Hon, Hb. fields.
  assert (Hlt : N / 8 * 8 <= N).
  { pose proof (Z.div_mod N 8 ltac:(lia)). pose proof (Z.mod_pos_bound N 8 ltac:(lia)). lia. }
  assert (Hdiv : 0 <= N / 8) by (apply Z.div_pos; lia).
  repeat split; case_ltb; lia.
Qed.

End Properties.

(** ** A buffer of 10 samples *)

(** C5.  With a buffer of 10 samples, [beginFillingADCBuffer] followed
    by two invocations of the handler, which hand 16 values to
    [insertSample]: the first 10 values are stored, masked, at the
    positions 0..9 in order, these are the only stores that are made (the
    other 6 values are written nowhere), and at the end the write index
    is 10, [sample_buffer_full] is one and Timer3 is off. *)
Theorem overrun_discard (s : machine) (hw1 hw2 : adc_regs) :
  length (adc_sample_buffer s) = 10%nat ->
  let r := (beginFillingADCBuffer ;; interrupts 10 [hw1; hw2]) s in
  let vs := drained hw1 ++ drained hw2 in
  length vs = 16%nat /\
  adc_sample_buffer (after r) = map (fun v => Z.land v 0x3ff) (take 10 vs) /\
  stores (events r) = imap (fun k v => (Z.of_nat k, Z.land v 0x3ff)) (take 10 vs) /\
  sample_buffer_current_index (after r) = 10 /\
  sample_buffer_full (after r) = 1 /\
  T3CON_ON (after r) = 0.
Proof.
  intros Hlen r vs.
  assert (Hsize : 0 < 10 < 2 ^ 32) by lia.
  assert (Hvs : length vs = 16%nat)
    by (subst vs; now rewrite length_app, !drained_length).
  assert (Hcat : concat (map drained [hw1; hw2]) = vs)
    by (subst vs; cbn [map concat]; now rewrite app_nil_r).
  split; [assumption |].
  subst r. cbn [bind after events].
  rewrite stores_app, interrupts_stores, interrupts_after, Hcat by assumption.
  rewrite batch_after, inserts_stores
    by (try rewrite beginFillingADCBuffer_after; fields; lia).
  rewrite beginFillingADCBuffer_after. fields.
  rewrite Hvs, batch_buffer by assumption.
  rewrite drop_ge, app_nil_r by lia.
  repeat split.
Qed.

(** ** Statements of the specification that the code does not meet *)

(** C3 as written fails: with a buffer of 8 samples, the handler
    invocation that makes the write index equal to 8 leaves
    [sample_buffer_full] at zero. *)
Lemma full_still_clear_when_index_reaches_size :
  let s := after (execs 8 [CallInit; CallStart; CallHandler (synthetic 0)] (reset 8)) in
  sample_buffer_current_index s = 8 /\ sample_buffer_full s = 0.
Proof. split; reflexivity. Qed.

(** C4 as written fails: with a buffer of 16 samples, after [initADC],
    [beginFillingADCBuffer] and 16 / 8 = 2 invocations of the handler
    the buffer holds the expected samples but [sample_buffer_full] is
    zero and Timer3 still runs. *)
Lemma nominal_fill_not_complete_after_size_div_8 :
  let s := after (execs 16 (CallInit :: CallStart ::
                            map CallHandler [synthetic 1; synthetic 0]) (reset 16)) in
  adc_sample_buffer s = ramp 16 /\
  ~ (sample_buffer_full s <> 0 /\ adc_sample_buffer s = ramp 16 /\ T3CON_ON s = 0).
Proof.
  split; [reflexivity |].
  intros (Hfull & _ & _). apply Hfull. reflexivity.
Qed.

(** ** The theorems at concrete inputs *)

Lemma insertSample_contract_witness :
  after (insertSample 4 0x12345 (Machine [0; 0; 0; 0] 1 0 1 0 1)) =
    Machine [0; 0x345; 0; 0] 2 0 1 0 1 /\
  after (insertSample 4 0x12345 (Machine [7; 7; 7; 7] 4 0 1 0 1)) =
    Machine [7; 7; 7; 7] 4 1 0 0 1.
Proof.
  assert (Hsize : 0 < 4 < 2 ^ 32) by lia.
  split.
  - assert (Hpos : 0 <= sample_buffer_current_index (Machine [0; 0; 0; 0] 1 0 1 0 1))
      by (simpl; lia).
    destruct (insertSample_contract 4 Hsize 0x12345 _ Hpos) as (_ & Hroom & _).
    destruct Hroom as [Hafter _]; [simpl; lia |].
    rewrite Hafter. reflexivity.
  - assert (Hpos : 0 <= sample_buffer_current_index (Machine [7; 7; 7; 7] 4 0 1 0 1))
      by (simpl; lia).
    destruct (insertSample_contract 4 Hsize 0x12345 _ Hpos) as (_ & _ & Hfull).
    destruct Hfull as [Hafter _]; [simpl; lia |].
    rewrite Hafter. reflexivity.
Defined.

Lemma full_set_by_first_insert_past_size_witness :
  0 < 8 < 2 ^ 32 /\
  sample_buffer_full
    (after (inserts 8 [1; 2; 3; 4; 5; 6; 7; 8]
                    (after (beginFillingADCBuffer (reset 8))))) = 0 /\
  sample_buffer_full
    (after (inserts 8 [1; 2; 3; 4; 5; 6; 7; 8; 9]
                    (after (beginFillingADCBuffer (reset 8))))) = 1 /\
  rises (flag_history 8 (reset 8) [1; 2; 3; 4; 5; 6; 7; 8]) = 0%nat /\
  flag_history 8 (reset 8) [1; 2; 3; 4; 5; 6; 7; 8; 9; 10] =
    [0; 0; 0; 0; 0; 0; 0; 0; 0; 1; 1] /\
  rises (flag_history 8 (reset 8) [1; 2; 3; 4; 5; 6; 7; 8; 9; 10]) = 1%nat.
Proof.
  assert (Hsize : 0 < 8 < 2 ^ 32) by lia.
  split; [exact Hsize | split; [| split; [| split; [| split]]]].
  - destruct (full_set_by_first_insert_past_size 8 Hsize (reset 8) [1; 2; 3; 4; 5; 6; 7; 8])
      as (_ & _ & Hfull & _).
    exact Hfull.
  - destruct (full_set_by_first_insert_past_size 8 Hsize (reset 8) [1; 2; 3; 4; 5; 6; 7; 8; 9])
      as (_ & _ & Hfull & _).
    exact Hfull.
  - destruct (full_set_by_first_insert_past_size 8 Hsize (reset 8) [1; 2; 3; 4; 5; 6; 7; 8])
      as (_ & _ & _ & _ & _ & _ & _ & _ & Hrises).
    exact Hrises.
  - destruct (full_set_by_first_insert_past_size 8 Hsize (reset 8)
                [1; 2; 3; 4; 5; 6; 7; 8; 9; 10])
      as (_ & _ & _ & _ & _ & _ & _ & Hhist & _).
    exact Hhist.
  - destruct (full_set_by_first_insert_past_size 8 Hsize (reset 8)
                [1; 2; 3; 4; 5; 6; 7; 8; 9; 10])
      as (_ & _ & _ & _ & _ & _ & _ & _ & Hrises).
    exact Hrises.
Defined.

Lemma nominal_fill_witness :
  0 < 16 < 2 ^ 32 /\
  16 = 8 * Z.of_nat (length [1; 0]) /\
  length (adc_sample_buffer (reset 16)) = Z.to_nat 16 /\
  let started := after (execs 16 [CallInit; CallStart] (reset 16)) in
  let s1 := after (interrupts 16 (map synthetic [1; 0]) started) in
  let s2 := after (interrupts 16 (map synthetic [1; 0; 1]) started) in
  (sample_buffer_full s1 = 0 /\ T3CON_ON s1 = 1) /\
  (adc_sample_buffer s2 = [0; 1; 2; 3; 4; 5; 6; 7; 0; 1; 2; 3; 4; 5; 6; 7] /\
   sample_buffer_full s2 = 1 /\ T3CON_ON s2 = 0).
Proof.
  assert (Hsize : 0 < 16 < 2 ^ 32) by lia.
  assert (HN : 16 = 8 * Z.of_nat (length [1; 0])) by reflexivity.
  assert (Hlen : length (adc_sample_buffer (reset 16)) = Z.to_nat 16) by reflexivity.
  split; [exact Hsize | split; [exact HN | split; [exact Hlen |]]].
  destruct (nominal_fill 16 Hsize (reset 16) [1; 0] 1 HN Hlen)
    as ((_ & _ & Hfull1 & Hon1) & (Hbuf2 & _ & Hfull2 & Hon2)).
  split; [split; [exact Hfull1 | exact Hon1] |].
  split; [exact Hbuf2 | split; [exact Hfull2 | exact Hon2]].
Defined.

Lemma overrun_discard_witness :
  let s := Machine [9; 9; 9; 9; 9; 9; 9; 9; 9; 9] 3 1 0 0 1 in
  let hw1 := synthetic 0 in
  let hw2 := AdcRegs 1 (fun k => 5000 + Z.of_nat k) in
  let r := (beginFillingADCBuffer ;; interrupts 10 [hw1; hw2]) s in
  length (adc_sample_buffer s) = 10%nat /\
  adc_sample_buffer (after r) = [0; 1; 2; 3; 4; 5; 6; 7; 904; 905] /\
  stores (events r) =
    [(0, 0); (1, 1); (2, 2); (3, 3); (4, 4); (5, 5); (6, 6); (7, 7); (8, 904); (9, 905)] /\
  sample_buffer_full (after r) = 1.
Proof.
  intros s hw1 hw2 r.
  assert (Hlen : length (adc_sample_buffer s) = 10%nat) by reflexivity.
  split; [exact Hlen |].
  destruct (overrun_discard s hw1 hw2 Hlen) as (_ & Hbuf & Hst & _ & Hfull & _).
  split; [exact Hbuf | split; [exact Hst | exact Hfull]].
Defined.

Lemma restart_indistinguishable_witness :
  let filling := Machine [1; 2; 3; 4; 5; 6; 7; 8] 5 0 1 0 1 in
  let idle := reset 8 in
  let hws := [synthetic 0] in
  0 < 8 < 2 ^ 32 /\
  length (adc_sample_buffer filling) = Z.to_nat 8 /\
  length (adc_sample_buffer idle) = Z.to_nat 8 /\
  sample_buffer_current_index (after (beginFillingADCBuffer filling)) = 0 /\
  observable (after (interrupts 8 hws (after (beginFillingADCBuffer filling)))) =
  observable (after (interrupts 8 hws (after (beginFillingADCBuffer idle)))).
Proof.
  intros filling idle hws.
  assert (Hsize : 0 < 8 < 2 ^ 32) by lia.
  assert (Hlen1 : length (adc_sample_buffer filling) = Z.to_nat 8) by reflexivity.
  assert (Hlen2 : length (adc_sample_buffer idle) = Z.to_nat 8) by reflexivity.
  split; [exact Hsize | split; [exact Hlen1 | split; [exact Hlen2 |]]].
  destruct (restart_indistinguishable 8 Hsize filling) as ((Hidx & _ & _) & Hsame).
  destruct (Hsame idle hws Hlen1 Hlen2) as (_ & Hobs & _).
  split; [exact Hidx | exact Hobs].
Defined.

Lemma write_index_in_bounds_witness :
  let cs := [CallInit; CallStart; CallHandler (synthetic 0); CallHandler (synthetic 1)] in
  0 < 8 < 2 ^ 32 /\
  0 <= sample_buffer_current_index (after (execs 8 cs (reset 8))) <= 8 /\
  Forall (fun p => 0 <= fst p < 8) (stores (events (execs 8 cs (reset 8)))).
Proof.
  intros cs.
  assert (Hsize : 0 < 8 < 2 ^ 32) by lia.
  split; [exact Hsize |].
  destruct (write_index_in_bounds 8 Hsize cs) as (Hidx & _ & Hst & _).
  split; [exact Hidx | exact Hst].
Defined.

Lemma samples_in_range_witness :
  let cs := [CallInit; CallStart; CallHandler (AdcRegs 0 (fun k => 70000 + Z.of_nat k))] in
  0 < 8 < 2 ^ 32 /\
  Forall (fun x => 0 <= x <= 1023) (adc_sample_buffer (after (execs 8 cs (reset 8)))).
Proof.
  intros cs.
  assert (Hsize : 0 < 8 < 2 ^ 32) by lia.
  split; [exact Hsize |].
  destruct (samples_in_range 8 Hsize cs) as (Hbuf & _).
  exact Hbuf.
Defined.

Lemma start_keeps_samples_witness :
  let s := Machine [11; 12; 13; 14; 15; 16; 17; 18] 8 1 0 0 1 in
  0 < 8 < 2 ^ 32 /\
  after (beginFillingADCBuffer s) = Machine [11; 12; 13; 14; 15; 16; 17; 18] 0 0 1 0 1 /\
  adc_sample_buffer (after (inserts 8 [1; 2] (after (beginFillingADCBuffer s)))) !! 2%nat =
    Some 13.
Proof.
  intros s.
  assert (Hsize : 0 < 8 < 2 ^ 32) by lia.
  split; [exact Hsize |].
  destruct (start_keeps_samples 8 Hsize s) as (Hafter & _ & Hkeep).
  split; [exact Hafter |].
  assert (Hj : (length [1; 2] <= 2)%nat) by (simpl; lia).
  exact (Hkeep [1; 2] 2%nat Hj).
Defined.

Lemma insert_when_full_witness :
  let s := Machine [11; 12; 13; 14; 15; 16; 17; 18] 8 0 1 1 1 in
  8 <= sample_buffer_current_index s /\
  after (_ADCHandler 8 (synthetic 0) s) = Machine [11; 12; 13; 14; 15; 16; 17; 18] 8 1 0 0 1.
Proof.
  intros s.
  assert (Hfull : 8 <= sample_buffer_current_index s) by (simpl; lia).
  split; [exact Hfull |].
  destruct (insert_when_full 8 s 1 2 (synthetic 0) Hfull) as (_ & _ & Hafter & _).
  exact Hafter.
Defined.

(** ** initADC *)

(** X9.  [initADC] may be called in any state: it makes no store into
    the sample buffer and leaves the buffer, the write index, the flag
    and the interrupt status as they are; it leaves Timer3 off and the
    interrupt flag of the converter clear; and a second call changes
    nothing more. *)
Theorem initADC_keeps_batch_state (s : machine) :
  let r := initADC s in
  adc_sample_buffer (after r) = adc_sample_buffer s /\
  sample_buffer_current_index (after r) = sample_buffer_current_index s /\
  sample_buffer_full (after r) = sample_buffer_full s /\
  IE (after r) = IE s /\
  T3CON_ON (after r) = 0 /\
  IFS1_AD1IF (after r) = 0 /\
  stores (events r) = [] /\
  after (initADC (after r)) = after r.
Proof.
  intros r. subst r.
  split; [reflexivity |]. split; [reflexivity |]. split; [reflexivity |].
  split; [reflexivity |]. split; [reflexivity |]. split; [reflexivity |].
  split; [reflexivity |].
  rewrite !initADC_after. reflexivity.
Qed.

Lemma calls_control (es : list event) :
  List.filter (fun e => match e with EvInsert _ => true | _ => false end) (control es) =
  List.filter (fun e => match e with EvInsert _ => true | _ => false end) es.
Proof.
  induction es as [| e es IH]; [reflexivity |].
  destruct e; cbn [control List.filter is_control]; fold (control es);
    cbn [List.filter]; now rewrite ?IH.
Qed.

Lemma buf_reads_app (es1 es2 : list event) :
  buf_reads (es1 ++ es2) = buf_reads es1 ++ buf_reads es2.
Proof. unfold buf_reads. apply flat_map_app. Qed.

Lemma buf_reads_control (es : list event) : buf_reads (control es) = buf_reads es.
Proof.
  induction es as [| e es IH]; [reflexivity |].
  destruct e; cbn [control List.filter is_control]; fold (control es);
    cbn [buf_reads flat_map app]; fold (buf_reads es); fold (buf_reads (control es));
    now rewrite ?IH.
Qed.

Lemma handler_buf_reads (size : Z) (hw : adc_regs) (s : machine) :
  buf_reads (events (_ADCHandler size hw s)) = completed_bank hw.
Proof.
  destruct (handler_events size hw s) as (body & -> & Hctl & _).
  change (EvReadBUFS :: body ++ [EvAD1IF 0]) with ([EvReadBUFS] ++ body ++ [EvAD1IF 0]).
  rewrite !buf_reads_app, <- (buf_reads_control body), Hctl.
  unfold completed_bank. destruct (AD1CON2_BUFS hw =? 0); reflexivity.
Qed.

(** X10.  The configuration that [initADC] writes fits the handler and
    the order that the converter asks for: the converter is set to
    interrupt after [SMPI + 1] conversions with [SMPI = 7], and one
    invocation of [_ADCHandler] reads exactly [SMPI + 1] result
    registers, those of one half of the buffer that [BUFM = 1] splits in
    two: the slots from [SMPI + 1] on when [BUFS] is 0 and the slots
    from 0 on otherwise; Timer3 is the trigger ([SSRC = 2]); every
    register field of the converter is written while the converter is
    off, and it is on at the end; the interrupt flag is cleared before
    the interrupt is enabled. *)
Theorem initADC_configuration
    (size : Z) (s t : machine) (on : bool) (hw : adc_regs) :
  let es := events (initADC s) in
  let r := _ADCHandler size hw t in
  exists smpi : Z,
    last_write "AD1CON2bits.SMPI" es = Some smpi /\
    smpi = 7 /\
    buf_reads (events r) =
      seq (if AD1CON2_BUFS hw =? 0 then Z.to_nat (smpi + 1) else 0) (Z.to_nat (smpi + 1)) /\
    Z.of_nat (length (List.filter (fun e => match e with EvInsert _ => true | _ => false end)
                                  (events r))) = smpi + 1 /\
    last_write "AD1CON2bits.BUFM" es = Some 1 /\
    last_write "AD1CON1bits.SSRC" es = Some 2 /\
    configured_while_off on es = true /\
    last_write "AD1CON1bits.ON" es = Some 1 /\
    flag_cleared_before_enable false es = true.
Proof.
  intros es r. subst es r. exists 7.
  split; [reflexivity |]. split; [reflexivity |].
  split.
  { rewrite handler_buf_reads. unfold completed_bank.
    destruct (AD1CON2_BUFS hw =? 0); reflexivity. }
  split.
  { destruct (handler_events size hw t) as (body & -> & Hctl & _).
    change (EvReadBUFS :: body ++ [EvAD1IF 0]) with ([EvReadBUFS] ++ body ++ [EvAD1IF 0]).
    rewrite !List.filter_app, !length_app. cbn [List.filter length].
    rewrite <- (calls_control body), Hctl.
    unfold completed_bank. destruct (AD1CON2_BUFS hw =? 0); reflexivity. }
  split; [reflexivity |].
  split; [reflexivity |].
  split; [destruct on; reflexivity |].
  split; reflexivity.
Qed.

(** ** The loop of main *)

Lemma next_test_number_mod (button test_number : Z) :
  0 <= test_number < NUM_TESTS ->
  next_test_number button test_number =
  if button =? 0 then (test_number + 1) mod NUM_TESTS else (test_number - 1) mod NUM_TESTS.
Proof.
  unfold NUM_TESTS. intros Hrange.
  assert (Hcases : test_number = 0 \/ test_number = 1 \/ test_number = 2 \/ test_number = 3)
    by lia.
  unfold next_test_number.
  destruct Hcases as [-> | [-> | [-> | ->]]]; destruct (button =? 0); reflexivity.
Qed.

Lemma next_test_number_range (button test_number : Z) :
  0 <= test_number < NUM_TESTS ->
  0 <= next_test_number button test_number < NUM_TESTS.
Proof.
  intros Hrange. rewrite next_test_number_mod by assumption.
  destruct (button =? 0); apply Z.mod_pos_bound; reflexivity.
Qed.

(** X11.  [test_number] stays between 0 and [NUM_TESTS - 1] whatever
    buttons are pressed, so that every turn of the loop of [main] runs
    one of the four tests; after any presses it is the start value plus
    the number of forward presses minus the number of backward presses,
    modulo [NUM_TESTS]. *)
Theorem main_loop_test_number (buttons : list Z) (test_number : Z) :
  0 <= test_number < NUM_TESTS ->
  let r := main_loop buttons test_number in
  0 <= snd r < NUM_TESTS /\
  snd r = (test_number + net_presses buttons) mod NUM_TESTS /\
  length (fst r) = length buttons /\
  Forall (fun run => run <> None) (fst r).
Proof.
  revert test_number. induction buttons as [| button buttons IH]; intros t Hrange r; subst r.
  - cbn [main_loop net_presses fold_right fst snd length].
    rewrite Z.add_0_r, Z.mod_small by assumption.
    repeat split; try lia. constructor.
  - cbn [main_loop fst snd length].
    pose proof (next_test_number_range button t Hrange) as Hnext.
    destruct (IH _ Hnext) as (Hr & Heq & Hlen & Hall).
    split; [assumption |]. split; [| split].
    + rewrite Heq, next_test_number_mod by assumption.
      change (net_presses (button :: buttons))
        with (if button =? 0 then net_presses buttons + 1 else net_presses buttons - 1).
      destruct (button =? 0); rewrite Zplus_mod_idemp_l; f_equal; lia.
    + now rewrite Hlen.
    + constructor; [| assumption].
      unfold NUM_TESTS in Hrange.
      assert (Hcases : t = 0 \/ t = 1 \/ t = 2 \/ t = 3) by lia.
      destruct Hcases as [-> | [-> | [-> | ->]]]; discriminate.
Qed.

(** X12.  A press forward and a press back cancel each other: from a
    [test_number] between 0 and [NUM_TESTS - 1], going forward and then
    back, or back and then forward, gives the same [test_number] again,
    also across the two ends. *)
Theorem next_test_number_inverse (back test_number : Z) :
  0 <= test_number < NUM_TESTS ->
  back <> 0 ->
  next_test_number back (next_test_number 0 test_number) = test_number /\
  next_test_number 0 (next_test_number back test_number) = test_number.
Proof.
  unfold NUM_TESTS. intros Hrange Hback.
  assert (Hcases : test_number = 0 \/ test_number = 1 \/ test_number = 2 \/ test_number = 3)
    by lia.
  apply Z.eqb_neq in Hback. unfold next_test_number. rewrite Hback.
  destruct Hcases as [-> | [-> | [-> | ->]]]; cbn; rewrite ?Hback; split; reflexivity.
Qed.

Ltac case_test t :=
  destruct (Z.eqb_spec t 0) as [-> | ?];
  [| destruct (Z.eqb_spec t 1) as [-> | ?];
     [| destruct (Z.eqb_spec t 2) as [-> | ?];
        [| destruct (Z.eqb_spec t 3) as [-> | ?]]]].

(** X13.  A turn of the loop of [main] runs a test exactly when
    [test_number] is between 0 and [NUM_TESTS - 1]; different numbers
    run different tests, and the test of the converter is number 3. *)
Theorem select_test_defined (test_number other : Z) :
  (select_test test_number <> None <-> 0 <= test_number < NUM_TESTS) /\
  (select_test test_number = Some TestADC <-> test_number = 3) /\
  (select_test test_number <> None ->
   select_test test_number = select_test other -> test_number = other).
Proof.
  unfold select_test, NUM_TESTS. split; [| split].
  - case_test test_number; split; intros H;
      first [lia | discriminate | exfalso; lia | now contradiction H].
  - case_test test_number; split; intros H;
      first [reflexivity | discriminate | lia | exfalso; lia].
  - case_test test_number; intros Hsome; try (now contradiction Hsome);
      case_test other; intros Heq; first [reflexivity | discriminate Heq].
Qed.

(** ** The further theorems at concrete inputs *)

Lemma batch_samples_in_order_witness :
  let mid := Machine [21; 22; 23; 24; 25; 26; 27; 28; 29; 30; 31; 32] 8 0 1 0 1 in
  let hw := AdcRegs 0 (fun k => 2000 + Z.of_nat k) in
  0 < 12 < 2 ^ 32 /\
  length (adc_sample_buffer mid) = Z.to_nat 12 /\
  adc_sample_buffer (after (interrupts 12 [hw] (after (beginFillingADCBuffer mid)))) =
    [984; 985; 986; 987; 988; 989; 990; 991; 29; 30; 31; 32].
Proof.
  intros mid hw.
  assert (Hsize : 0 < 12 < 2 ^ 32) by lia.
  assert (Hlen : length (adc_sample_buffer mid) = Z.to_nat 12) by reflexivity.
  split; [exact Hsize | split; [exact Hlen |]].
  exact (batch_samples_in_order 12 Hsize mid [hw] Hlen).
Defined.

Lemma full_means_complete_witness :
  let cs := [CallInit; CallStart; CallHandler (synthetic 0); CallHandler (synthetic 1)] in
  let s := after (execs 8 cs (reset 8)) in
  0 < 8 < 2 ^ 32 /\
  sample_buffer_full s <> 0 /\
  sample_buffer_current_index s = 8 /\
  T3CON_ON s = 0 /\
  adc_sample_buffer (after (interrupts 8 [synthetic 0] s)) = adc_sample_buffer s.
Proof.
  intros cs s.
  assert (Hsize : 0 < 8 < 2 ^ 32) by lia.
  assert (Hfull : sample_buffer_full s <> 0) by (vm_compute; discriminate).
  split; [exact Hsize | split; [exact Hfull |]].
  destruct (full_means_complete 8 Hsize cs [synthetic 0] Hfull)
    as ((Hidx & Hoff) & Hbuf & _).
  split; [exact Hidx | split; [exact Hoff | exact Hbuf]].
Defined.

Lemma batch_store_positions_witness :
  0 < 10 < 2 ^ 32 /\
  map fst (stores (events ((beginFillingADCBuffer ;;
                            interrupts 10 [synthetic 0; synthetic 1]) (reset 10)))) =
  [0; 1; 2; 3; 4; 5; 6; 7; 8; 9].
Proof.
  assert (Hsize : 0 < 10 < 2 ^ 32) by lia.
  split; [exact Hsize |].
  exact (batch_store_positions 10 Hsize (reset 10) [synthetic 0; synthetic 1]).
Defined.

Lemma index_monotone_witness :
  let s := Machine (replicate 20 0) 4 0 1 0 1 in
  0 < 20 < 2 ^ 32 /\
  0 <= sample_buffer_current_index s <= 20 /\
  sample_buffer_current_index (after (interrupts 20 [synthetic 0] s)) <=
  sample_buffer_current_index (after (interrupts 20 ([synthetic 0] ++ [synthetic 1]) s)).
Proof.
  intros s.
  assert (Hsize : 0 < 20 < 2 ^ 32) by lia.
  assert (Hi : 0 <= sample_buffer_current_index s <= 20) by (simpl; lia).
  split; [exact Hsize | split; [exact Hi |]].
  destruct (index_monotone 20 Hsize [synthetic 0] [synthetic 1] s Hi) as (_ & _ & Hle & _).
  exact Hle.
Defined.

Lemma handler_stores_whole_bank_witness :
  let s := Machine (replicate 16 0) 8 0 1 1 1 in
  let hw := AdcRegs 1 (fun k => 1024 + Z.of_nat k) in
  0 < 16 < 2 ^ 32 /\
  0 <= sample_buffer_current_index s /\
  sample_buffer_current_index s + 8 <= 16 /\
  adc_sample_buffer (after (_ADCHandler 16 hw s)) =
    [0; 0; 0; 0; 0; 0; 0; 0; 0; 1; 2; 3; 4; 5; 6; 7] /\
  sample_buffer_full (after (_ADCHandler 16 hw s)) = 0.
Proof.
  intros s hw.
  assert (Hsize : 0 < 16 < 2 ^ 32) by lia.
  assert (Hpos : 0 <= sample_buffer_current_index s) by (simpl; lia).
  assert (Hroom : sample_buffer_current_index s + 8 <= 16) by (simpl; lia).
  split; [exact Hsize | split; [exact Hpos | split; [exact Hroom |]]].
  destruct (handler_stores_whole_bank 16 Hsize hw s Hpos Hroom) as (Hbuf & _ & _ & Hfull & _).
  split; [exact Hbuf | exact Hfull].
Defined.

Lemma handler_fills_and_completes_witness :
  let s := Machine (replicate 10 0) 8 0 1 1 1 in
  let hw := AdcRegs 1 (fun k => 1024 + Z.of_nat k) in
  0 < 10 < 2 ^ 32 /\
  0 <= sample_buffer_current_index s <= 10 /\
  10 < sample_buffer_current_index s + 8 /\
  adc_sample_buffer (after (_ADCHandler 10 hw s)) = [0; 0; 0; 0; 0; 0; 0; 0; 0; 1] /\
  sample_buffer_full (after (_ADCHandler 10 hw s)) = 1 /\
  T3CON_ON (after (_ADCHandler 10 hw s)) = 0.
Proof.
  intros s hw.
  assert (Hsize : 0 < 10 < 2 ^ 32) by lia.
  assert (Hi : 0 <= sample_buffer_current_index s <= 10) by (simpl; lia).
  assert (Hless : 10 < sample_buffer_current_index s + 8) by (simpl; lia).
  split; [exact Hsize | split; [exact Hi | split; [exact Hless |]]].
  destruct (handler_fills_and_completes 10 Hsize hw s Hi Hless)
    as (Hbuf & _ & _ & _ & Hfull & Hoff).
  split; [exact Hbuf | split; [exact Hfull | exact Hoff]].
Defined.

Lemma testADC_fill_completes_witness :
  let hws := [synthetic 0; synthetic 1; synthetic 0; synthetic 1] in
  let r := testADC_fill 16 hws (reset 16) in
  0 < 16 < 2 ^ 32 /\
  length (adc_sample_buffer (reset 16)) = Z.to_nat 16 /\
  (S (Z.to_nat (16 / 8)) <= length hws)%nat /\
  value r = Some [synthetic 1] /\
  adc_sample_buffer (after r) = [0; 1; 2; 3; 4; 5; 6; 7; 0; 1; 2; 3; 4; 5; 6; 7] /\
  sample_buffer_full (after r) = 1.
Proof.
  intros hws r.
  assert (Hsize : 0 < 16 < 2 ^ 32) by lia.
  assert (Hlen : length (adc_sample_buffer (reset 16)) = Z.to_nat 16) by reflexivity.
  assert (Hneed : (S (Z.to_nat (16 / 8)) <= length hws)%nat) by (vm_compute; lia).
  split; [exact Hsize | split; [exact Hlen | split; [exact Hneed |]]].
  destruct (testADC_fill_completes 16 Hsize (reset 16) hws Hlen Hneed)
    as (Hval & Hbuf & _ & Hfull & _).
  split; [exact Hval | split; [exact Hbuf | exact Hfull]].
Defined.

Lemma testADC_fill_spins_witness :
  let hws := [synthetic 0; synthetic 1] in
  let r := testADC_fill 16 hws (reset 16) in
  0 < 16 < 2 ^ 32 /\
  (length hws <= Z.to_nat (16 / 8))%nat /\
  value r = None /\
  sample_buffer_full (after r) = 0 /\
  sample_buffer_current_index (after r) = 16.
Proof.
  intros hws r.
  assert (Hsize : 0 < 16 < 2 ^ 32) by lia.
  assert (Hfew : (length hws <= Z.to_nat (16 / 8))%nat) by (vm_compute; lia).
  split; [exact Hsize | split; [exact Hfew |]].
  destruct (testADC_fill_spins 16 Hsize (reset 16) hws Hfew) as (Hval & Hfull & _ & Hidx).
  split; [exact Hval | split; [exact Hfull | exact Hidx]].
Defined.

Lemma main_loop_test_number_witness :
  0 <= 0 < NUM_TESTS /\
  main_loop [0; 0; 1; 0; 0; 0; 1; 1] 0 =
    ([Some TestSSD1306; Some TestSST25x; Some TestATSHA204; Some TestSST25x;
      Some TestATSHA204; Some TestADC; Some TestSSD1306; Some TestADC], 2) /\
  snd (main_loop [0; 0; 1; 0; 0; 0; 1; 1] 0) =
    (0 + net_presses [0; 0; 1; 0; 0; 0; 1; 1]) mod NUM_TESTS.
Proof.
  assert (Hrange : 0 <= 0 < NUM_TESTS) by (unfold NUM_TESTS; lia).
  split; [exact Hrange | split; [reflexivity |]].
  destruct (main_loop_test_number [0; 0; 1; 0; 0; 0; 1; 1] 0 Hrange) as (_ & Heq & _).
  exact Heq.
Defined.

Lemma next_test_number_inverse_witness :
  0 <= 3 < NUM_TESTS /\ 1 <> 0 /\
  next_test_number 1 (next_test_number 0 3) = 3 /\
  next_test_number 0 (next_test_number 1 0) = 0.
Proof.
  assert (Hrange3 : 0 <= 3 < NUM_TESTS) by (unfold NUM_TESTS; lia).
  assert (Hrange0 : 0 <= 0 < NUM_TESTS) by (unfold NUM_TESTS; lia).
  assert (Hback : 1 <> 0) by lia.
  split; [exact Hrange3 | split; [exact Hback |]].
  destruct (next_test_number_inverse 1 3 Hrange3 Hback) as (Hfb & _).
  destruct (next_test_number_inverse 1 0 Hrange0 Hback) as (_ & Hbf).
  split; [exact Hfb | exact Hbf].
Defined.
